(** * cabbage.tasks: Task, TaskManager and the configuration of jobs

    A shallow embedding of [cabbage/tasks.py] and a verification of its
    specification.  Python objects that are mutated in place (the
    [TaskManager] registry, the job store) live in an explicit [World];
    methods are computations in a state-and-exception monad over it. *)

From Stdlib Require Import ZArith String Ascii List Lia Bool.
From stdpp Require Import gmap strings list fin_maps functions.

Set Warnings "-register-all,-clear-no-such-hyp".
Local Open Scope string_scope.
Local Open Scope list_scope.
Local Open Scope Z_scope.

(** ** Exceptions and outcomes *)

(** The exception classes the module can see.  [PyException] stands for
    any other class (the store's own errors, a work unit's failure). *)
Inductive Exn : Type :=
| ValueError (msg : string)
| TypeError (msg : string)
| OverflowError (msg : string)
| PyException (cls msg : string).

Inductive Outcome (A : Type) : Type :=
| Returned (a : A)
| Raised (e : Exn).
Arguments Returned {A} a.
Arguments Raised {A} e.

(** ** JSON payloads *)

(** Modelled from the spec: [types.JSONValue] and [types.JSONDict]
    ([cabbage/types.py] is not part of the sources at hand).  The spec
    lists string, number, boolean, null, array and nested map; numbers are
    kept to the integers, the module never looks inside a payload. *)
Inductive JSONValue : Type :=
| JNull
| JBool (b : bool)
| JNumber (n : Z)
| JString (s : string)
| JArray (items : list JSONValue)
| JObject (fields : list (string * JSONValue)).

Abbreviation JSONDict := (gmap string JSONValue).

(** ** Dates and times *)

Module datetime.

(** A model of the standard [datetime] module under the third-party
    library [pendulum], as far as [Task.configure] needs it.  Aware
    datetimes are compared as instants, so a datetime is an instant,
    counted in microseconds from 0001-01-01T00:00:00 UTC; the civil
    calendar is the proleptic Gregorian one. *)

Definition US_PER_SECOND : Z := 1000000.
Definition US_PER_MINUTE : Z := 60 * US_PER_SECOND.
Definition US_PER_HOUR : Z := 60 * US_PER_MINUTE.
Definition US_PER_DAY : Z := 24 * US_PER_HOUR.

Definition MINYEAR : Z := 1.
Definition MAXYEAR : Z := 9999.
(** [date.max.toordinal()] *)
Definition MAXORDINAL : Z := 3652059.

Definition is_leap (year : Z) : bool :=
  (year mod 4 =? 0) && (negb (year mod 100 =? 0) || (year mod 400 =? 0)).

Definition DAYS_IN_MONTH : list Z :=
  [-1; 31; 28; 31; 30; 31; 30; 31; 31; 30; 31; 30; 31].

Definition DAYS_BEFORE_MONTH : list Z :=
  [-1; 0; 31; 59; 90; 120; 151; 181; 212; 243; 273; 304; 334].

Definition days_before_year (year : Z) : Z :=
  let y := year - 1 in
  y * 365 + y / 4 - y / 100 + y / 400.

Definition days_in_month (year month : Z) : Z :=
  if (month =? 2) && is_leap year then 29
  else nth (Z.to_nat month) DAYS_IN_MONTH 0.

Definition days_before_month (year month : Z) : Z :=
  nth (Z.to_nat month) DAYS_BEFORE_MONTH 0
  + (if (month >? 2) && is_leap year then 1 else 0).

(** year, month, day -> ordinal, 0001-01-01 being day 1 *)
Definition ymd2ord (year month day : Z) : Z :=
  days_before_year year + days_before_month year month + day.

Definition DI400Y : Z := 146097.
Definition DI100Y : Z := 36524.
Definition DI4Y : Z := 1461.

(** ordinal -> (year, month, day) *)
Definition ord2ymd (n : Z) : Z * Z * Z :=
  let n := n - 1 in
  let n400 := n / DI400Y in
  let n := n mod DI400Y in
  let year := n400 * 400 + 1 in
  let n100 := n / DI100Y in
  let n := n mod DI100Y in
  let n4 := n / DI4Y in
  let n := n mod DI4Y in
  let n1 := n / 365 in
  let n := n mod 365 in
  let year := year + n100 * 100 + n4 * 4 + n1 in
  if (n1 =? 4) || (n100 =? 4) then (year - 1, 12, 31)
  else
    let leapyear := (n1 =? 3) && (negb (n4 =? 24) || (n100 =? 3)) in
    let month := Z.shiftr (n + 50) 5 in
    let preceding :=
      nth (Z.to_nat month) DAYS_BEFORE_MONTH 0
      + (if (month >? 2) && leapyear then 1 else 0) in
    let '(month, preceding) :=
      if preceding >? n then
        (month - 1,
         preceding
         - (nth (Z.to_nat (month - 1)) DAYS_IN_MONTH 0
            + (if (month - 1 =? 2) && leapyear then 1 else 0)))
      else (month, preceding) in
    (year, month, n - preceding + 1).

(** The instants a [datetime] can hold: from 0001-01-01T00:00:00 up to the
    last microsecond of 9999-12-31. *)
Definition in_range (us : Z) : bool :=
  (0 <=? us) && (us <? MAXORDINAL * US_PER_DAY).

Record DateTime : Type := mkDateTime {
  instant : Z;
  instant_ok : Is_true (in_range instant)
}.

(** Builds a datetime from an instant; out of range is [OverflowError],
    as in [datetime.__add__]. *)
Definition of_instant (us : Z) : Outcome DateTime :=
  match Is_true_dec (in_range us) with
  | left ok => Returned (mkDateTime us ok)
  | right _ => Raised (OverflowError "date value out of range")
  end.

End datetime.

Abbreviation DateTime := datetime.DateTime.

(** ** Objects *)

(** Managers and job stores are mutable objects that tasks and jobs point
    to; a reference is an address in the [World]. *)
Abbreviation ManagerRef := nat.
Abbreviation StoreRef := nat.

Module jobs.

(** Modelled from the spec: the class [jobs.Job] ([cabbage/jobs.py] is not
    part of the sources at hand), with the fields [Task.configure] gives
    it and the unit tests compare. *)
Record Job : Type := mkJob {
  id : option Z;
  lock : string;
  task_name : string;
  queue : string;
  task_kwargs : JSONDict;
  scheduled_at : option DateTime;
  job_store : StoreRef
}.

End jobs.

(** Modelled from the spec: the interface [store.JobStore]
    ([cabbage/store.py] is not part of the sources at hand).  A store has a
    state of its own; each operation returns or raises and leaves a new
    state.  [register_queue] is the spec's [registerQueue], [defer] its
    [defer(job)]; [PostgresJobStore] is the store a manager builds when it
    is given none. *)
Class JobStore : Type := {
  StoreState : Type;
  register_queue : string → StoreState → Outcome unit * StoreState;
  defer : jobs.Job → StoreState → Outcome Z * StoreState;
  PostgresJobStore : Outcome StoreState
}.

(** A function object: its [__name__] and its identity. *)
Record Callable : Type := mkCallable {
  __name__ : string;
  code : nat
}.

Record Task : Type := mkTask {
  queue : string;
  manager : ManagerRef;
  func : Callable;
  name : string
}.

Record TaskManager : Type := mkTaskManager {
  job_store : StoreRef;
  tasks : gmap string Task;
  queues : gset string
}.

(** What the job stores were asked, in order. *)
Inductive StoreCall : Type :=
| RegisterQueue (store : StoreRef) (queue : string)
| Defer (store : StoreRef) (job : jobs.Job).

(** A record handed to [logger.info]. *)
Record LogRecord : Type := mkLogRecord {
  message : string;
  extra : list (string * string)
}.

(** ** The world *)

Section World.
Context `{JS : JobStore}.

Record World : Type := mkWorld {
  managers : ManagerRef → TaskManager;
  next_manager : ManagerRef;
  stores : StoreRef → StoreState;
  next_store : StoreRef;
  (** what the clock shows *)
  utcnow : DateTime;
  (** the successive 16-byte reads of [os.urandom], as numbers *)
  urandom : nat → Z;
  urandom_reads : nat;
  store_calls : list StoreCall;
  log_records : list LogRecord
}.

Definition set_managers (f : (ManagerRef → TaskManager) → ManagerRef → TaskManager)
    (w : World) : World :=
  mkWorld (f (managers w)) (next_manager w) (stores w) (next_store w) (utcnow w)
          (urandom w) (urandom_reads w) (store_calls w) (log_records w).

Definition set_next_manager (n : ManagerRef) (w : World) : World :=
  mkWorld (managers w) n (stores w) (next_store w) (utcnow w)
          (urandom w) (urandom_reads w) (store_calls w) (log_records w).

Definition set_stores (f : (StoreRef → StoreState) → StoreRef → StoreState)
    (w : World) : World :=
  mkWorld (managers w) (next_manager w) (f (stores w)) (next_store w) (utcnow w)
          (urandom w) (urandom_reads w) (store_calls w) (log_records w).

Definition set_next_store (n : StoreRef) (w : World) : World :=
  mkWorld (managers w) (next_manager w) (stores w) n (utcnow w)
          (urandom w) (urandom_reads w) (store_calls w) (log_records w).

Definition set_urandom_reads (n : nat) (w : World) : World :=
  mkWorld (managers w) (next_manager w) (stores w) (next_store w) (utcnow w)
          (urandom w) n (store_calls w) (log_records w).

Definition set_store_calls (l : list StoreCall) (w : World) : World :=
  mkWorld (managers w) (next_manager w) (stores w) (next_store w) (utcnow w)
          (urandom w) (urandom_reads w) l (log_records w).

Definition set_log_records (l : list LogRecord) (w : World) : World :=
  mkWorld (managers w) (next_manager w) (stores w) (next_store w) (utcnow w)
          (urandom w) (urandom_reads w) (store_calls w) l.

(** ** Computations: state and exceptions *)

(** A method call returns or raises, and leaves the world as it was at
    that point: what was written before an exception stays written. *)
Definition M (A : Type) : Type := World → Outcome A * World.

Definition ret {A} (a : A) : M A := λ w, (Returned a, w).

Definition raise {A} (e : Exn) : M A := λ w, (Raised e, w).

Definition bind {A B} (c : M A) (k : A → M B) : M B := λ w,
  match c w with
  | (Returned a, w') => k a w'
  | (Raised e, w') => (Raised e, w')
  end.

Definition gets {A} (f : World → A) : M A := λ w, (Returned (f w), w).

Definition modify (f : World → World) : M unit := λ w, (Returned tt, f w).

(** A value computed outside the world, or the exception it raised. *)
Definition lift {A} (o : Outcome A) : M A := λ w, (o, w).

End World.

(** stdpp's notations for computations: [x ← c; k] and [c;; k]. *)
#[global] Instance M_ret `{JobStore} : MRet M := @ret _.
#[global] Instance M_bind `{JobStore} : MBind M := λ A B k c, bind c k.

(** ** The clock library *)

Module pendulum.

(** A model of the third-party library [pendulum], as far as
    [Task.configure] uses it: [now("UTC")] and [DateTime.add]. *)

(** [pendulum.now("UTC")] *)
Definition now `{JobStore} : M DateTime := gets utcnow.

(** [with pendulum.test(now)]: the clock is held at [now]. *)
Definition test `{JobStore} (now : DateTime) (w : World) : World :=
  mkWorld (managers w) (next_manager w) (stores w) (next_store w) now
          (urandom w) (urandom_reads w) (store_calls w) (log_records w).

(** [pendulum.datetime(year, month, day, hour, minute, second, tz="UTC")] *)
Definition datetime (year month day hour minute second : Z) : Outcome DateTime :=
  if (datetime.MINYEAR <=? year) && (year <=? datetime.MAXYEAR)
     && (1 <=? month) && (month <=? 12)
     && (1 <=? day) && (day <=? datetime.days_in_month year month)
     && (0 <=? hour) && (hour <=? 23)
     && (0 <=? minute) && (minute <=? 59)
     && (0 <=? second) && (second <=? 59)
  then
    datetime.of_instant
      ((datetime.ymd2ord year month day - 1) * datetime.US_PER_DAY
       + hour * datetime.US_PER_HOUR + minute * datetime.US_PER_MINUTE
       + second * datetime.US_PER_SECOND)
  else Raised (ValueError "field out of range").

(** The keyword arguments [DateTime.add] accepts. *)
Definition UNITS : gset string :=
  {[ "years"; "months"; "weeks"; "days";
     "hours"; "minutes"; "seconds"; "microseconds" ]}.

Definition unit_of (kwargs : gmap string Z) (unit : string) : Z :=
  default 0 (kwargs !! unit).

(** The calendar part of [add_duration]: the year and the month move, the
    day is cut down to the length of the month reached, the time of day
    stays.  Nothing moves when both counts are zero. *)
Definition shift_calendar (us years months : Z) : Outcome Z :=
  if (years =? 0) && (months =? 0) then Returned us
  else
    let '(y, m, d) := datetime.ord2ymd (us / datetime.US_PER_DAY + 1) in
    let year := y + years in
    let '(year, month) :=
      if months =? 0 then (year, m)
      else (year + (m + months - 1) / 12, (m + months - 1) mod 12 + 1) in
    if (datetime.MINYEAR <=? year) && (year <=? datetime.MAXYEAR) then
      let day := Z.min (datetime.days_in_month year month) d in
      Returned ((datetime.ymd2ord year month day - 1) * datetime.US_PER_DAY
                + us mod datetime.US_PER_DAY)
    else Raised (ValueError "year is out of range").

(** [dt.add], the mapping passed as keyword arguments: a key that is no
    unit is a [TypeError]; weeks, days and the units of time are lengths
    on the time line. *)
Definition add (dt : DateTime) (kwargs : gmap string Z) : Outcome DateTime :=
  if decide (dom kwargs ⊆ UNITS) then
    let days := unit_of kwargs "days" + unit_of kwargs "weeks" * 7 in
    match shift_calendar (datetime.instant dt)
            (unit_of kwargs "years") (unit_of kwargs "months") with
    | Raised e => Raised e
    | Returned us =>
        datetime.of_instant
          (us + days * datetime.US_PER_DAY
           + unit_of kwargs "hours" * datetime.US_PER_HOUR
           + unit_of kwargs "minutes" * datetime.US_PER_MINUTE
           + unit_of kwargs "seconds" * datetime.US_PER_SECOND
           + unit_of kwargs "microseconds")
    end
  else Raised (TypeError "add() got an unexpected keyword argument").

End pendulum.

(** 2000-01-01T00:00:00 and 2000-01-01T02:00:00, UTC *)
Definition y2k : DateTime := datetime.mkDateTime 63082281600000000 I.
Definition y2k_2am : DateTime := datetime.mkDateTime 63082288800000000 I.

(** ** Random identifiers *)

Module uuid.

(** A model of the standard [uuid] module: [uuid4] and [str] of a UUID,
    which is a 128-bit number. *)

(** [UUID(bytes=..., version=4)]: the variant and the version are forced
    into the 128 bits read. *)
Definition UUID (int : Z) : Z :=
  let int := Z.land int (Z.lnot (Z.shiftl 0xc000 48)) in
  let int := Z.lor int (Z.shiftl 0x8000 48) in
  let int := Z.land int (Z.lnot (Z.shiftl 0xf000 64)) in
  Z.lor int (Z.shiftl 4 76).

(** [uuid.uuid4()]: sixteen bytes are read from [os.urandom]. *)
Definition uuid4 `{JobStore} : M Z := λ w,
  (Returned (UUID (urandom w (urandom_reads w) mod 2 ^ 128)),
   set_urandom_reads (S (urandom_reads w)) w).

Definition HEX_DIGITS : list ascii := list_ascii_of_string "0123456789abcdef".

Definition hex_digit (d : Z) : ascii := nth (Z.to_nat d) HEX_DIGITS "0"%char.

(** the hexadecimal digit of weight [16 ^ i] *)
Definition nibble (int : Z) (i : Z) : Z := Z.land (Z.shiftr int (4 * i)) 15.

(** ['%032x' % int] *)
Definition hex32 (int : Z) : list ascii :=
  map (λ i : nat, hex_digit (nibble int (31 - Z.of_nat i))) (seq 0 32).

Definition dashed (hex : list ascii) : list ascii :=
  take 8 hex ++ "-"%char :: take 4 (drop 8 hex) ++ "-"%char
  :: take 4 (drop 12 hex) ++ "-"%char :: take 4 (drop 16 hex) ++ "-"%char
  :: drop 20 hex.

(** [str(uuid)]: the 32 digits, cut 8-4-4-4-12 *)
Definition str (int : Z) : string := string_of_list_ascii (dashed (hex32 int)).

End uuid.

(** ** Collaborators *)

Section Collaborators.
Context `{JS : JobStore}.

(** A call to the store behind a reference: the call is recorded, the
    store moves to its new state, the outcome is the store's. *)
Definition store_register_queue (store : StoreRef) (queue : string) : M unit := λ w,
  let '(outcome, state) := register_queue queue (stores w store) in
  (outcome,
   set_stores (λ f, <[store := state]> f)
     (set_store_calls (store_calls w ++ [RegisterQueue store queue]) w)).

Definition store_defer (store : StoreRef) (job : jobs.Job) : M Z := λ w,
  let '(outcome, state) := defer job (stores w store) in
  (outcome,
   set_stores (λ f, <[store := state]> f)
     (set_store_calls (store_calls w ++ [Defer store job]) w)).

(** [logger.info(message, extra=extra)] *)
Definition logger_info (message : string) (extra : list (string * string)) : M unit :=
  modify (λ w, set_log_records (log_records w ++ [mkLogRecord message extra]) w).

End Collaborators.

(** What calling a function object with keyword arguments does: anything,
    and it returns a value or raises. *)
Class Functions `{JS : JobStore} : Type := {
  apply : Callable → JSONDict → M JSONValue
}.

(** [functools.update_wrapper(wrapper, wrapped)], of the standard library:
    it writes attributes of the function onto the task object, the
    function's own attributes (its [__dict__]) among them, and returns that
    object.  A function attribute named [queue], [manager], [func] or
    [name] replaces the task's; what the task's four attributes are
    afterwards depends on the function object and is left open here. *)
Class Functools : Type := {
  update_wrapper : Task → Callable → Task
}.

(** A mapping passed as the keyword arguments of a method: the method's
    own first parameter is [self], so a key named ["self"] clashes with it
    and the call raises before the body runs. *)
Definition bind_kwargs `{JS : JobStore} {A} (method : string)
    (kwargs : JSONDict) (body : M A) : M A :=
  if decide ("self" ∈ dom kwargs) then
    raise (TypeError
             (String.append method
                "() got multiple values for argument 'self'"))
  else body.

(** ** Truth values *)

(** A datetime object defines neither [__bool__] nor [__len__]: it is
    true, and only [None] is false. *)
Definition datetime_bool (x : option DateTime) : bool :=
  match x with Some _ => true | None => false end.

(** [None] and the empty string are false. *)
Definition str_bool (x : option string) : bool :=
  match x with Some s => bool_decide (s ≠ "") | None => false end.

(** [None] and the empty mapping are false. *)
Definition dict_bool {V} (x : option (gmap string V)) : bool :=
  match x with Some d => bool_decide (d ≠ ∅) | None => false end.

(** [x is not None] *)
Definition is_not_None {A} (x : option A) : bool :=
  match x with Some _ => true | None => false end.

(** The value of [x] once it is known not to be [None]. *)
Definition the {A} (x : option A) (d : A) : A := default d x.

(** ** jobs.Job *)

Module Job.

(** Modelled from the spec: the method [Job.defer] ([cabbage/jobs.py] is
    not part of the sources at hand).  The spec has the job carry its
    [jobStore] to carry out [defer], the store's [defer(job)] return the
    identifier, and the job recorded for [task.defer(x=1)] hold
    [taskKwargs == {x: 1}]: the keyword arguments are laid over the job's
    own and the job is handed to its store. *)
Definition defer `{JobStore} (self : jobs.Job) (task_kwargs : JSONDict) : M Z :=
  let job :=
    jobs.mkJob (jobs.id self) (jobs.lock self) (jobs.task_name self)
      (jobs.queue self) (task_kwargs ∪ jobs.task_kwargs self)
      (jobs.scheduled_at self) (jobs.job_store self) in
  store_defer (jobs.job_store self) job.

End Job.

(** ** Task *)

Module Task.

Definition __init__ (func : Callable) (manager : ManagerRef) (queue : string)
    (name : option string) : Task :=
  mkTask queue manager func
    (if str_bool name then the name "" else __name__ func).

Definition __call__ `{Functions} (self : Task) (kwargs : JSONDict) : M JSONValue :=
  bind_kwargs "__call__" kwargs (apply (func self) kwargs).

Definition configure `{JobStore} (self : Task)
    (lock : option string) (task_kwargs : option JSONDict)
    (schedule_at : option DateTime) (schedule_in : option (gmap string Z))
    : M jobs.Job :=
  if datetime_bool schedule_at && is_not_None schedule_in then
    raise (ValueError "Cannot set both schedule_at and schedule_in")
  else
    schedule_at ←
      match schedule_in with
      | Some kwargs =>
          now ← pendulum.now;
          at_ ← lift (pendulum.add now kwargs);
          ret (Some at_)
      | None => ret schedule_at
      end;
    lock ←
      (if str_bool lock then ret (the lock "")
       else token ← uuid.uuid4; ret (uuid.str token));
    let task_kwargs := if dict_bool task_kwargs then the task_kwargs ∅ else ∅ in
    store ← gets (λ w, job_store (managers w (manager self)));
    ret (jobs.mkJob None lock (name self) (queue self) task_kwargs
           schedule_at store).

Definition defer `{JobStore} (self : Task) (task_kwargs : JSONDict) : M Z :=
  bind_kwargs "defer" task_kwargs
    (job ← configure self None None None None;
     job_id ← Job.defer job task_kwargs;
     ret job_id).

End Task.

(** ** TaskManager *)

Module TaskManager.

(** A manager object is made and initialised; without a store it builds a
    [PostgresJobStore] of its own. *)
Definition __init__ `{JobStore} (job_store : option StoreRef) : M ManagerRef :=
  job_store ←
    match job_store with
    | Some store => ret store
    | None =>
        state ← lift PostgresJobStore;
        store ← gets next_store;
        modify (λ w, set_next_store (S store)
                       (set_stores (λ f, <[store := state]> f) w));;
        ret store
    end;
  self ← gets next_manager;
  modify (λ w, set_next_manager (S self)
                 (set_managers (λ f, <[self := mkTaskManager job_store ∅ ∅]> f) w));;
  ret self.

Definition register `{JobStore} (self : ManagerRef) (task : Task) : M unit :=
  modify (set_managers (λ f,
    <[self := mkTaskManager (job_store (f self))
                (<[name task := task]> (tasks (f self)))
                (queues (f self))]> f));;
  known ← gets (λ w, queues (managers w self));
  if decide (queue task ∉ known) then
    logger_info "Creating queue (if not already existing)"
      [("action", "create_queue"); ("queue", queue task)];;
    store ← gets (λ w, job_store (managers w self));
    store_register_queue store (queue task);;
    modify (set_managers (λ f,
      <[self := mkTaskManager (job_store (f self)) (tasks (f self))
                  ({[queue task]} ∪ queues (f self))]> f))
  else ret tt.

(** The task object [task], bound in the registry under its name, has
    been written to and is now [updated]: the registry shows it so. *)
Definition written `{JobStore} (self : ManagerRef) (task updated : Task)
    : M unit :=
  modify (set_managers (λ f,
    <[self := mkTaskManager (job_store (f self))
                (<[name task := updated]> (tasks (f self)))
                (queues (f self))]> f)).

(** The closure [_wrap] of [task], over [self], [queue] and [name].  The
    task object that [update_wrapper] writes to is the one [register] has
    just put in the registry. *)
Definition _wrap `{JobStore} `{Functools} (self : ManagerRef) (queue : string)
    (name : option string) (func : Callable) : M Task :=
  let task := Task.__init__ func self queue name in
  register self task;;
  let wrapped := update_wrapper task func in
  written self task wrapped;;
  ret wrapped.

(** What [task] returns: the decorator to apply to a function, or the
    task made of the function it was given. *)
Inductive Declared `{JobStore} : Type :=
| Decorator (wrap : Callable → M Task)
| Wrapped (task : Task).

(** [task(_func=None, queue="default", name=None)]; an argument left out
    is [None]. *)
Definition task `{JobStore} `{Functools} (self : ManagerRef)
    (_func : option Callable) (queue : option string) (name : option string)
    : M Declared :=
  let queue := default "default" queue in
  match _func with
  | None => ret (Decorator (_wrap self queue name))
  | Some func =>
      task ← _wrap self queue name func;
      ret (Wrapped task)
  end.

End TaskManager.

(** ** Runs of registrations *)

Section Runs.
Context `{JS : JobStore}.

(** The world after the tasks [ts] were registered one after the other;
    a caller that meets an exception goes on with the next registration. *)
Definition register_all (self : ManagerRef) (ts : list Task) (w : World) : World :=
  foldl (λ w task, (TaskManager.register self task w).2) w ts.

(** Every registration of the run returned. *)
Fixpoint all_returned (self : ManagerRef) (ts : list Task) (w : World) : bool :=
  match ts with
  | [] => true
  | task :: ts =>
      match TaskManager.register self task w with
      | (Returned _, w') => all_returned self ts w'
      | (Raised _, _) => false
      end
  end.

(** How many registrations of the run, among those of tasks that name the
    queue [q], raised. *)
Fixpoint failures (q : string) (self : ManagerRef) (ts : list Task)
    (w : World) : nat :=
  match ts with
  | [] => 0
  | task :: ts =>
      let '(outcome, w') := TaskManager.register self task w in
      (match outcome with
       | Raised _ => if bool_decide (queue task = q) then 1 else 0
       | Returned _ => 0
       end
       + failures q self ts w')%nat
  end.

End Runs.

Definition is_register_queue (store : StoreRef) (queue : string)
    (c : StoreCall) : bool :=
  match c with
  | RegisterQueue s q => bool_decide (s = store ∧ q = queue)
  | Defer _ _ => false
  end.

(** How many times [register_queue(queue)] was asked of [store]. *)
Definition register_queue_calls (store : StoreRef) (queue : string)
    (calls : list StoreCall) : nat :=
  length (List.filter (is_register_queue store queue) calls).

(** How many tasks of a run name the queue [q]. *)
Definition naming (q : string) (ts : list Task) : nat :=
  length (List.filter (λ t, bool_decide (queue t = q)) ts).

(** ** A store to run the code against *)

Module memory.

(** A store held in memory, in the manner of the unit tests' fixture: the
    jobs of each registered queue in the order they came, identifiers
    counted from 0.  [outages] operations to come fail with a
    [StoreError] before the store answers again. *)
Record State : Type := mkState {
  jobs : gmap string (list jobs.Job);
  job_counter : Z;
  outages : nat
}.

Definition StoreError : Exn := PyException "StoreError" "backend unavailable".

Definition register_queue (queue : string) (s : State) : Outcome unit * State :=
  match outages s with
  | S n => (Raised StoreError, mkState (jobs s) (job_counter s) n)
  | O =>
      (Returned tt,
       mkState (if decide (queue ∈ dom (jobs s)) then jobs s
                else <[queue := []]> (jobs s))
               (job_counter s) O)
  end.

Definition defer (job : jobs.Job) (s : State) : Outcome Z * State :=
  match outages s with
  | S n => (Raised StoreError, mkState (jobs s) (job_counter s) n)
  | O =>
      match jobs s !! jobs.queue job with
      | None => (Raised (PyException "KeyError" (jobs.queue job)), s)
      | Some l =>
          let saved :=
            jobs.mkJob (Some (job_counter s)) (jobs.lock job)
              (jobs.task_name job) (jobs.queue job) (jobs.task_kwargs job)
              (jobs.scheduled_at job) (jobs.job_store job) in
          (Returned (job_counter s),
           mkState (<[jobs.queue job := l ++ [saved]]> (jobs s))
                   (job_counter s + 1) O)
      end
  end.

Definition empty : State := mkState ∅ 0 O.

(** A store whose first operation fails. *)
Definition flaky : State := mkState ∅ 0 1.

Definition store : JobStore :=
  Build_JobStore State register_queue defer (Returned empty).

(** The functions of the unit tests: [task_func] does nothing, [wrapped]
    returns ["foo"]; any other function object raises. *)
Definition task_func : Callable := mkCallable "task_func" 0.
Definition wrapped : Callable := mkCallable "wrapped" 1.

Definition functions : @Functions store :=
  {| apply := λ f kwargs w,
       match code f with
       | O => (Returned JNull, w)
       | S O => (Returned (JString "foo"), w)
       | _ => (Raised (PyException "RuntimeError" (__name__ f)), w)
       end |}.

(** The functions of the unit tests carry no attribute of their own:
    [update_wrapper] leaves the four attributes of a task as they are. *)
Definition functools : Functools :=
  {| update_wrapper := λ wrapper wrapped, wrapper |}.

(** A world at 2000-01-01T00:00:00 UTC with the manager 0 on the store 0;
    the store 0 is [s]. *)
Definition world (s : State) : @World store :=
  @mkWorld store (λ _, mkTaskManager 0 ∅ ∅) 1 (λ _, s) 1 y2k
          (λ n, 0x0123456789abcdef0123456789abcdef * (Z.of_nat n + 1)) 0 [] [].

(** The tasks of the unit tests, bound to the manager 0 and to the
    manager 1, and the manager that [world s] makes next. *)
Definition task_a : Task := Task.__init__ task_func 0 "queue" None.
Definition task_b : Task := Task.__init__ wrapped 1 "queue" (Some "b").
Definition task_c : Task := Task.__init__ task_func 1 "queue" (Some "bla").
Definition task_d : Task := Task.__init__ wrapped 1 "other" None.

(** The same world with a random source that gives the same sixteen bytes
    at every read. *)
Definition stuck (s : State) : @World store :=
  @mkWorld store (λ _, mkTaskManager 0 ∅ ∅) 1 (λ _, s) 1 y2k (λ _, 5) 0 [] [].

Definition world1 (s : State) : @World store :=
  (TaskManager.__init__ (Some 0%nat) (world s)).2.

End memory.

(** * Verification *)

(** ** Unfolding computations *)

Ltac run :=
  unfold pendulum.now, uuid.uuid4, logger_info in *;
  unfold mbind, M_bind, bind, mret, M_ret, ret, gets, lift, raise, modify in *;
  cbn beta iota zeta in *.

(** ** The libraries *)

Lemma datetime_eq (a b : DateTime) :
  datetime.instant a = datetime.instant b → a = b.
Proof.
  destruct a as [x Hx], b as [y Hy]; simpl; intros ->.
  f_equal. apply proof_irrel.
Qed.

Lemma of_instant_instant (t : DateTime) :
  datetime.of_instant (datetime.instant t) = Returned t.
Proof.
  unfold datetime.of_instant.
  destruct (Is_true_dec _) as [ok|bad].
  - f_equal. by apply datetime_eq.
  - destruct bad. apply datetime.instant_ok.
Qed.

(** Adding nothing gives the same instant. *)
Lemma pendulum_add_empty (t : DateTime) : pendulum.add t ∅ = Returned t.
Proof.
  unfold pendulum.add.
  rewrite decide_True by (rewrite dom_empty_L; set_solver).
  unfold pendulum.unit_of. rewrite !lookup_empty. simpl.
  rewrite <- (of_instant_instant t). f_equal. lia.
Qed.

Lemma hex_length (int : Z) : length (uuid.hex32 int) = 32%nat.
Proof. unfold uuid.hex32. by rewrite length_map, length_seq. Qed.

Lemma dashed_length (hex : list ascii) :
  length hex = 32%nat → length (uuid.dashed hex) = 36%nat.
Proof.
  intros H. unfold uuid.dashed.
  repeat (rewrite ?length_app, ?length_cons, ?length_take, ?length_drop).
  lia.
Qed.

Lemma string_of_list_length (l : list ascii) :
  String.length (string_of_list_ascii l) = length l.
Proof. induction l; simpl; congruence. Qed.

(** A UUID prints as 36 characters. *)
Lemma uuid_str_length (int : Z) : String.length (uuid.str int) = 36%nat.
Proof.
  unfold uuid.str. rewrite string_of_list_length.
  apply dashed_length, hex_length.
Qed.

Lemma uuid_str_nonempty (int : Z) : uuid.str int ≠ "".
Proof.
  intros H. pose proof (uuid_str_length int) as L. rewrite H in L. discriminate.
Qed.

Lemma list_of_string_of_list (l : list ascii) :
  list_ascii_of_string (string_of_list_ascii l) = l.
Proof. induction l; simpl; congruence. Qed.

Lemma testbit_high (x k : Z) :
  0 ≤ x < 2 ^ 128 → 128 ≤ k → Z.testbit x k = false.
Proof.
  intros [H0 H1] Hk.
  destruct (decide (x = 0)) as [->|Hx]; [apply Z.bits_0|].
  apply Z.bits_above_log2; [done|].
  assert (Z.log2 x < 128); [|lia].
  apply Z.log2_lt_pow2; lia.
Qed.

Lemma nibble_testbit (int i t : Z) :
  0 ≤ i → 0 ≤ t < 4 →
  Z.testbit (uuid.nibble int i) t = Z.testbit int (4 * i + t).
Proof.
  intros Hi Ht. unfold uuid.nibble.
  rewrite Z.land_spec, Z.shiftr_spec by lia.
  replace (Z.testbit 15 t) with true.
  - rewrite andb_true_r. f_equal. lia.
  - assert (t = 0 ∨ t = 1 ∨ t = 2 ∨ t = 3) as [->|[->|[->| ->]]] by lia; done.
Qed.

Lemma nibble_range (int i : Z) : 0 ≤ uuid.nibble int i < 16.
Proof.
  unfold uuid.nibble. change 15 with (Z.ones 4).
  rewrite Z.land_ones by lia. apply Z.mod_pos_bound. lia.
Qed.

Lemma hex_digit_inj (d d' : Z) :
  0 ≤ d < 16 → 0 ≤ d' < 16 → uuid.hex_digit d = uuid.hex_digit d' → d = d'.
Proof.
  intros Hd Hd'.
  assert (∃ n : nat, (n < 16)%nat ∧ d = Z.of_nat n) as (n & Hn & ->)
    by (exists (Z.to_nat d); lia).
  assert (∃ n : nat, (n < 16)%nat ∧ d' = Z.of_nat n) as (n' & Hn' & ->)
    by (exists (Z.to_nat d'); lia).
  unfold uuid.hex_digit. rewrite !Nat2Z.id. intros H. f_equal.
  do 16 (destruct n as [|n]; [do 16 (destruct n' as [|n']; [done|]); lia|]).
  lia.
Qed.

Lemma dashed_inj (h h' : list ascii) :
  length h = 32%nat → length h' = 32%nat →
  uuid.dashed h = uuid.dashed h' → h = h'.
Proof.
  intros L L' H.
  do 32 (destruct h as [|? h]; [discriminate L|]).
  destruct h; [|discriminate L].
  do 32 (destruct h' as [|? h']; [discriminate L'|]).
  destruct h'; [|discriminate L'].
  cbv in H. by simplify_eq.
Qed.

Lemma hex32_bits (a b : Z) :
  uuid.hex32 a = uuid.hex32 b →
  ∀ k, 0 ≤ k < 128 → Z.testbit a k = Z.testbit b k.
Proof.
  unfold uuid.hex32. intros H k Hk.
  assert (Hn : uuid.nibble a (k / 4) = uuid.nibble b (k / 4)).
  { pose proof (proj1 List.map_ext_in_iff H (Z.to_nat (31 - k / 4))) as Hi.
    cbv beta in Hi.
    assert (0 ≤ k / 4 < 32) by (split; [apply Z.div_pos | apply Z.div_lt_upper_bound]; lia).
    rewrite Z2Nat.id in Hi by lia.
    replace (31 - (31 - k / 4)) with (k / 4) in Hi by lia.
    apply hex_digit_inj; [apply nibble_range..|].
    apply Hi, in_seq. lia. }
  assert (0 ≤ k / 4) by (apply Z.div_pos; lia).
  pose proof (Z.mod_pos_bound k 4 ltac:(lia)).
  assert (Hk4 : k = 4 * (k / 4) + k mod 4) by (apply Z.div_mod; lia).
  revert Hn Hk4. generalize (k / 4) (k mod 4) H0 H1. intros j t Hj Ht Hn ->.
  rewrite <- !nibble_testbit by lia. by rewrite Hn.
Qed.

Lemma UUID_testbit_high (r k : Z) :
  0 ≤ r < 2 ^ 128 → 128 ≤ k → Z.testbit (uuid.UUID r) k = false.
Proof.
  intros Hr Hk. unfold uuid.UUID. cbv zeta.
  repeat (rewrite Z.lor_spec || rewrite Z.land_spec).
  rewrite (testbit_high r) by done.
  rewrite (testbit_high (Z.shiftl 32768 48)), (testbit_high (Z.shiftl 4 76))
    by (done || (cbv; split; congruence)).
  done.
Qed.

Lemma UUID_nonneg (r : Z) : 0 ≤ r → 0 ≤ uuid.UUID r.
Proof.
  intros Hr. unfold uuid.UUID. cbv zeta.
  apply Z.lor_nonneg. split; [|done].
  apply Z.land_nonneg. left.
  apply Z.lor_nonneg. split; [|done].
  apply Z.land_nonneg. by left.
Qed.

(** Two UUIDs that print alike are the same number. *)
Lemma uuid_str_inj (r1 r2 : Z) :
  0 ≤ r1 < 2 ^ 128 → 0 ≤ r2 < 2 ^ 128 →
  uuid.str (uuid.UUID r1) = uuid.str (uuid.UUID r2) →
  uuid.UUID r1 = uuid.UUID r2.
Proof.
  intros H1 H2 H. unfold uuid.str in H.
  apply (f_equal list_ascii_of_string) in H.
  rewrite !list_of_string_of_list in H.
  apply dashed_inj in H; [|apply hex_length..].
  apply Z.bits_inj'. intros k Hk.
  destruct (decide (k < 128)).
  - by apply hex32_bits.
  - rewrite !UUID_testbit_high by lia. done.
Qed.

(** ** Task.configure in closed form *)

Section Configure.
Context `{JS : JobStore}.

(** The outcome of [configure] in closed form, when the two ways to
    schedule are not given together. *)
Lemma configure_unfold (self : Task) lock task_kwargs schedule_at schedule_in (w : World) :
  datetime_bool schedule_at && is_not_None schedule_in = false →
  Task.configure self lock task_kwargs schedule_at schedule_in w =
  match match schedule_in with
        | Some kwargs =>
            match pendulum.add (utcnow w) kwargs with
            | Returned t => Returned (Some t)
            | Raised e => Raised e
            end
        | None => Returned schedule_at
        end with
  | Raised e => (Raised e, w)
  | Returned scheduled =>
      (Returned
         (jobs.mkJob None
            (if str_bool lock then the lock ""
             else uuid.str (uuid.UUID (urandom w (urandom_reads w) mod 2 ^ 128)))
            (name self) (queue self)
            (if dict_bool task_kwargs then the task_kwargs ∅ else ∅)
            scheduled (job_store (managers w (manager self)))),
       if str_bool lock then w else set_urandom_reads (S (urandom_reads w)) w)
  end.
Proof.
  intros Hnot. unfold Task.configure. rewrite Hnot. run.
  destruct schedule_in as [kwargs|].
  - destruct (pendulum.add (utcnow w) kwargs); [|done].
    by destruct (str_bool lock).
  - by destruct (str_bool lock).
Qed.

(** What a [configure] call that returns has returned, and the world it
    has left. *)
Lemma configure_returned (self : Task) lock task_kwargs schedule_at schedule_in
    (w w' : World) (job : jobs.Job) :
  Task.configure self lock task_kwargs schedule_at schedule_in w
  = (Returned job, w') →
  (∃ scheduled,
     job = jobs.mkJob None
             (if str_bool lock then the lock ""
              else uuid.str (uuid.UUID (urandom w (urandom_reads w) mod 2 ^ 128)))
             (name self) (queue self)
             (if dict_bool task_kwargs then the task_kwargs ∅ else ∅)
             scheduled (job_store (managers w (manager self))))
  ∧ w' = (if str_bool lock then w
          else set_urandom_reads (S (urandom_reads w)) w).
Proof.
  destruct (datetime_bool schedule_at && is_not_None schedule_in) eqn:Hboth.
  { unfold Task.configure. rewrite Hboth. discriminate. }
  rewrite configure_unfold by done.
  destruct (match schedule_in with Some _ => _ | None => _ end); [|discriminate].
  intros [= <- <-]. eauto.
Qed.

End Configure.

(** ** Task.configure: the claims *)

Section ConfigureClaims.
Context `{JS : JobStore}.

Lemma not_both_None_r (schedule_at : option DateTime) :
  datetime_bool schedule_at && @is_not_None (gmap string Z) None = false.
Proof. by destruct schedule_at. Qed.

Lemma not_both_None_l (schedule_in : option (gmap string Z)) :
  datetime_bool None && is_not_None schedule_in = false.
Proof. done. Qed.

(** The lock [configure] settles on is never the empty string. *)
Lemma resolved_lock_nonempty (lock : option string) (int : Z) :
  (if str_bool lock then the lock "" else uuid.str int) ≠ "".
Proof.
  destruct lock as [s|]; simpl; [|apply uuid_str_nonempty].
  case_bool_decide; [done|apply uuid_str_nonempty].
Qed.

(** C2: a [configure] call given both [schedule_at] and [schedule_in]
    raises the error "Cannot set both schedule_at and schedule_in" (a
    [ValueError], the spec's InvalidConfiguration), whatever the two values
    are, the empty duration included, and leaves the world untouched. *)
Theorem configure_both_raises (self : Task) (lock : option string)
    (task_kwargs : option JSONDict) (schedule_at : DateTime)
    (schedule_in : gmap string Z) (w : World) :
  Task.configure self lock task_kwargs (Some schedule_at) (Some schedule_in) w
  = (Raised (ValueError "Cannot set both schedule_at and schedule_in"), w)
  ∧ Task.configure self lock task_kwargs (Some schedule_at) (Some ∅) w
    = (Raised (ValueError "Cannot set both schedule_at and schedule_in"), w).
Proof. split; reflexivity. Qed.

(** C3: given [schedule_in] and no [schedule_at], [configure] returns a
    job scheduled at the clock's reading plus the duration whenever that
    sum exists, and raises what the sum raises otherwise; with the clock
    at 2000-01-01T00:00:00 and two hours, the job is scheduled at
    2000-01-01T02:00:00. *)
Theorem configure_schedule_in (self : Task) (lock : option string)
    (task_kwargs : option JSONDict) (schedule_in : gmap string Z) (w : World) :
  match pendulum.add (utcnow w) schedule_in with
  | Returned t =>
      ∃ job w',
        Task.configure self lock task_kwargs None (Some schedule_in) w
        = (Returned job, w')
        ∧ jobs.scheduled_at job = Some t
  | Raised e =>
      Task.configure self lock task_kwargs None (Some schedule_in) w
      = (Raised e, w)
  end
  ∧ (pendulum.datetime 2000 1 1 0 0 0 = Returned y2k
     ∧ pendulum.datetime 2000 1 1 2 0 0 = Returned y2k_2am
     ∧ ∃ job w',
         Task.configure self lock task_kwargs None (Some {[ "hours" := 2 ]})
           (pendulum.test y2k w)
         = (Returned job, w')
         ∧ jobs.scheduled_at job = Some y2k_2am).
Proof.
  split; [|split; [|split]].
  - rewrite configure_unfold by done.
    destruct (pendulum.add (utcnow w) schedule_in); eauto.
  - vm_compute. reflexivity.
  - vm_compute. reflexivity.
  - rewrite configure_unfold by done.
    replace (pendulum.add (utcnow (pendulum.test y2k w)) {[ "hours" := 2 ]})
      with (Returned y2k_2am) by (vm_compute; reflexivity).
    eauto.
Qed.

(** C4: the job a [configure] call returns has no id, the task's name and
    queue, and the store of the task's manager; without a lock it carries
    the print of a UUID made from a new read of the random source, and
    without keyword arguments the empty mapping. *)
Theorem configure_job_fields (self : Task) (lock : option string)
    (task_kwargs : option JSONDict) (schedule_at : option DateTime)
    (schedule_in : option (gmap string Z)) (w w' : World) (job : jobs.Job) :
  Task.configure self lock task_kwargs schedule_at schedule_in w
  = (Returned job, w') →
  jobs.id job = None
  ∧ jobs.task_name job = name self
  ∧ jobs.queue job = queue self
  ∧ jobs.job_store job = job_store (managers w (manager self))
  ∧ (lock = None →
     jobs.lock job = uuid.str (uuid.UUID (urandom w (urandom_reads w) mod 2 ^ 128))
     ∧ urandom_reads w' = S (urandom_reads w))
  ∧ (task_kwargs = None → jobs.task_kwargs job = ∅).
Proof.
  intros H. apply configure_returned in H as [[scheduled ->] ->]. simpl.
  do 4 (split; [done|]). by split; intros ->.
Qed.

(** C9: a [configure] call, whether it returns or raises, writes to no
    manager and asks nothing of any store: the managers (their tasks and
    queues), the stores, the record of store calls, the log and the clock
    are as before.  Only the count of random reads may have moved. *)
Theorem configure_frame (self : Task) (lock : option string)
    (task_kwargs : option JSONDict) (schedule_at : option DateTime)
    (schedule_in : option (gmap string Z)) (w : World) :
  let w' := (Task.configure self lock task_kwargs schedule_at schedule_in w).2 in
  managers w' = managers w
  ∧ tasks (managers w' (manager self)) = tasks (managers w (manager self))
  ∧ queues (managers w' (manager self)) = queues (managers w (manager self))
  ∧ stores w' = stores w
  ∧ store_calls w' = store_calls w
  ∧ next_manager w' = next_manager w
  ∧ next_store w' = next_store w
  ∧ log_records w' = log_records w
  ∧ utcnow w' = utcnow w
  ∧ urandom w' = urandom w.
Proof.
  destruct (datetime_bool schedule_at && is_not_None schedule_in) eqn:Hboth.
  { unfold Task.configure. rewrite Hboth. by repeat split. }
  rewrite configure_unfold by done.
  destruct (match schedule_in with Some _ => _ | None => _ end);
    [destruct (str_bool lock)|]; by repeat split.
Qed.

(** C10: given the empty mapping as [schedule_in] and no [schedule_at],
    [configure] returns, and the job is scheduled at the clock's reading:
    its [scheduled_at] is not left unset. *)
Theorem configure_schedule_in_empty (self : Task) (lock : option string)
    (task_kwargs : option JSONDict) (w : World) :
  ∃ job w',
    Task.configure self lock task_kwargs None (Some ∅) w = (Returned job, w')
    ∧ jobs.scheduled_at job = Some (utcnow w)
    ∧ jobs.scheduled_at job ≠ None.
Proof.
  rewrite configure_unfold by done.
  rewrite pendulum_add_empty. eauto.
Qed.

End ConfigureClaims.

(** ** Task.defer and Task.__call__ *)

Section DeferClaims.
Context `{JS : JobStore}.

Lemma dict_or_Some (d : JSONDict) :
  (if dict_bool (Some d) then the (Some d) ∅ else ∅) = d.
Proof. simpl. case_bool_decide as H; [done|by subst]. Qed.

(** A key named ["self"] stops a method call before its body. *)
Lemma bind_kwargs_self {A} (method : string) (kwargs : JSONDict) (body : M A)
    (w : World) :
  "self" ∈ dom kwargs →
  bind_kwargs method kwargs body w
  = (Raised (TypeError
               (String.append method
                  "() got multiple values for argument 'self'")), w).
Proof. intros H. unfold bind_kwargs. by rewrite decide_True. Qed.

Lemma bind_kwargs_other {A} (method : string) (kwargs : JSONDict) (body : M A) :
  "self" ∉ dom kwargs → bind_kwargs method kwargs body = body.
Proof. intros H. unfold bind_kwargs. by rewrite decide_False. Qed.

(** The job [Task.defer] hands to the store, and the world it is handed
    over in. *)
Lemma defer_unfold (self : Task) (task_kwargs : JSONDict) (w : World) :
  "self" ∉ dom task_kwargs →
  Task.defer self task_kwargs w =
  store_defer (job_store (managers w (manager self)))
    (jobs.mkJob None
       (uuid.str (uuid.UUID (urandom w (urandom_reads w) mod 2 ^ 128)))
       (name self) (queue self) task_kwargs None
       (job_store (managers w (manager self))))
    (set_urandom_reads (S (urandom_reads w)) w).
Proof.
  intros Hself. unfold Task.defer. rewrite bind_kwargs_other by done. run.
  rewrite configure_unfold by done. simpl.
  unfold Job.defer. simpl. rewrite (right_id_L ∅ (∪)).
  by destruct (store_defer _ _ _) as [[?|?] ?].
Qed.

(** C1, amended: for keyword arguments with no key named ["self"],
    [Task.defer] does what configuring with the keyword arguments and
    handing the job to the store does.  The job configured carries the
    keyword arguments and the task's name and goes to the store of the
    task's manager in one [defer] call; the outcome is the store's own:
    the identifier it returns, or the exception it raises.  A mapping with
    a key named ["self"] cannot be passed to the method: the call raises a
    [TypeError] and nothing is configured or handed over. *)
Theorem defer_configure_then_submit (self : Task) (task_kwargs : JSONDict)
    (w : World) :
  ("self" ∉ dom task_kwargs →
   Task.defer self task_kwargs w
   = (job ← Task.configure self None (Some task_kwargs) None None;
      store_defer (jobs.job_store job) job) w
   ∧ ∃ job w1,
       Task.configure self None (Some task_kwargs) None None w
       = (Returned job, w1)
       ∧ jobs.task_kwargs job = task_kwargs
       ∧ jobs.task_name job = name self
       ∧ jobs.job_store job = job_store (managers w (manager self))
       ∧ (Task.defer self task_kwargs w).1
         = (defer job (stores w1 (jobs.job_store job))).1
       ∧ store_calls (Task.defer self task_kwargs w).2
         = store_calls w ++ [Defer (jobs.job_store job) job])
  ∧ ("self" ∈ dom task_kwargs →
     Task.defer self task_kwargs w
     = (Raised (TypeError "defer() got multiple values for argument 'self'"),
        w)).
Proof.
  split; [|apply bind_kwargs_self].
  intros Hself. rewrite defer_unfold by done. run.
  rewrite configure_unfold by done. rewrite dict_or_Some. simpl.
  split; [done|].
  eexists _, _. split; [done|]. simpl. do 3 (split; [done|]).
  unfold store_defer. simpl.
  by destruct (defer _ _) as [outcome state].
Qed.

(** C7, amended: the lock of a job is never the empty string: not on a
    job [configure] returns, whatever the lock given (none, the empty
    string, any other), and not on the job [defer] hands to the store.
    Without a lock, each call prints the UUID made from a new read of the
    random source; two calls in a row give the same lock exactly when
    their two reads give the same UUID, and different locks otherwise. *)
Theorem lock_never_empty :
  (∀ (self : Task) lock task_kwargs schedule_at schedule_in (w w' : World) job,
     Task.configure self lock task_kwargs schedule_at schedule_in w
     = (Returned job, w') →
     jobs.lock job ≠ "")
  ∧ (∀ (self : Task) task_kwargs (w : World),
       "self" ∉ dom task_kwargs →
       ∃ job,
         store_calls (Task.defer self task_kwargs w).2
         = store_calls w ++ [Defer (jobs.job_store job) job]
         ∧ jobs.lock job ≠ "")
  ∧ (∀ (self self' : Task) task_kwargs task_kwargs' schedule_at schedule_at'
       schedule_in schedule_in' (w w1 w2 : World) job job',
       Task.configure self None task_kwargs schedule_at schedule_in w
       = (Returned job, w1) →
       Task.configure self' None task_kwargs' schedule_at' schedule_in' w1
       = (Returned job', w2) →
       jobs.lock job
       = uuid.str (uuid.UUID (urandom w (urandom_reads w) mod 2 ^ 128))
       ∧ jobs.lock job'
         = uuid.str (uuid.UUID (urandom w (S (urandom_reads w)) mod 2 ^ 128))
       ∧ urandom_reads w1 = S (urandom_reads w)
       ∧ urandom_reads w2 = S (urandom_reads w1)
       ∧ (jobs.lock job = jobs.lock job'
          ↔ uuid.UUID (urandom w (urandom_reads w) mod 2 ^ 128)
            = uuid.UUID (urandom w (S (urandom_reads w)) mod 2 ^ 128))).
Proof.
  split; [|split].
  - intros self lock task_kwargs schedule_at schedule_in w w' job H.
    apply configure_returned in H as [[scheduled ->] _].
    apply resolved_lock_nonempty.
  - intros self task_kwargs w Hself. rewrite defer_unfold by done.
    exists (jobs.mkJob None
              (uuid.str (uuid.UUID (urandom w (urandom_reads w) mod 2 ^ 128)))
              (name self) (queue self) task_kwargs None
              (job_store (managers w (manager self)))).
    unfold store_defer. simpl.
    destruct (defer _ _) as [outcome state]. simpl.
    split; [done|]. apply uuid_str_nonempty.
  - intros self self' task_kwargs task_kwargs' schedule_at schedule_at'
      schedule_in schedule_in' w w1 w2 job job' H1 H2.
    apply configure_returned in H1 as [[scheduled ->] ->].
    apply configure_returned in H2 as [[scheduled' ->] ->]. simpl.
    do 4 (split; [done|]). split.
    + apply uuid_str_inj; apply Z.mod_pos_bound; lia.
    + by intros ->.
Qed.

End DeferClaims.

Section CallClaims.
Context `{FN : Functions}.

(** C8, amended: calling a task with keyword arguments that have no key
    named ["self"] is calling its work unit with them, there and then: the
    value returned or the exception raised is the work unit's, and so is
    the world left behind; the call itself asks nothing of a store.  A
    mapping with a key named ["self"] cannot be passed to the call: it
    raises a [TypeError], the work unit is not called and the world is
    as before. *)
Theorem call_is_the_work_unit (self : Task) (kwargs : JSONDict) (w : World) :
  ("self" ∉ dom kwargs →
   Task.__call__ self kwargs w = apply (func self) kwargs w
   ∧ store_calls (Task.__call__ self kwargs w).2
     = store_calls (apply (func self) kwargs w).2
   ∧ stores (Task.__call__ self kwargs w).2
     = stores (apply (func self) kwargs w).2)
  ∧ ("self" ∈ dom kwargs →
     Task.__call__ self kwargs w
     = (Raised (TypeError "__call__() got multiple values for argument 'self'"),
        w)).
Proof.
  split; [|apply bind_kwargs_self].
  intros Hself. unfold Task.__call__. by rewrite bind_kwargs_other.
Qed.

End CallClaims.

(** ** TaskManager.register *)

Section RegisterClaims.
Context `{JS : JobStore}.

Lemma calls_app (store : StoreRef) (q : string) (l : list StoreCall) (c : StoreCall) :
  register_queue_calls store q (l ++ [c])
  = (register_queue_calls store q l
     + if is_register_queue store q c then 1 else 0)%nat.
Proof.
  unfold register_queue_calls. rewrite List.filter_app, length_app. simpl.
  by destruct (is_register_queue store q c).
Qed.

(** One registration, in full: the task is written under its name first;
    a known queue ends the call there, an unknown one is asked of the
    store, once, and is known afterwards if the store returned. *)
Lemma register_step (self : ManagerRef) (task : Task) (w : World) :
  let m := managers w self in
  let w' := (TaskManager.register self task w).2 in
  job_store (managers w' self) = job_store m
  ∧ tasks (managers w' self) = <[name task := task]> (tasks m)
  ∧ if decide (queue task ∈ queues m) then
      (TaskManager.register self task w).1 = Returned tt
      ∧ store_calls w' = store_calls w
      ∧ stores w' = stores w
      ∧ queues (managers w' self) = queues m
    else
      (TaskManager.register self task w).1
      = (register_queue (queue task) (stores w (job_store m))).1
      ∧ store_calls w' = store_calls w ++ [RegisterQueue (job_store m) (queue task)]
      ∧ queues (managers w' self)
        = match (TaskManager.register self task w).1 with
          | Returned _ => {[queue task]} ∪ queues m
          | Raised _ => queues m
          end.
Proof.
  unfold TaskManager.register. run. unfold set_managers at 2 3 4. simpl.
  rewrite !fn_lookup_insert. simpl.
  destruct (decide (queue task ∈ queues (managers w self))) as [Hin|Hnot].
  - rewrite decide_False by (intros H; by apply H).
    simpl. rewrite fn_lookup_insert. split_and!; reflexivity.
  - rewrite decide_True by done.
    unfold store_register_queue. simpl. rewrite ?fn_lookup_insert. simpl.
    destruct (register_queue _ _) as [[[]|e] state]; simpl;
      rewrite ?fn_lookup_insert; split_and!; reflexivity.
Qed.


(** A manager just made has its store, no task and no known queue, and
    making it asked nothing of a store. *)
Lemma init_fresh (store : StoreRef) (w w0 : World) (self : ManagerRef) :
  TaskManager.__init__ (Some store) w = (Returned self, w0) →
  managers w0 self = mkTaskManager store ∅ ∅
  ∧ store_calls w0 = store_calls w.
Proof.
  unfold TaskManager.__init__. run. unfold set_next_manager, set_managers.
  intros [= <- <-]. simpl. by rewrite fn_lookup_insert.
Qed.

(** The calls of any run, counted: one for each registration that names
    the queue and raises, and one for the registration that makes the
    queue known.  Known queues stay known. *)
Lemma register_run_calls (self : ManagerRef) (store : StoreRef) (q : string)
    (ts : list Task) :
  ∀ w : World,
    job_store (managers w self) = store →
    (queues (managers w self) ⊆ queues (managers (register_all self ts w) self))
    ∧ register_queue_calls store q (store_calls (register_all self ts w))
      = (register_queue_calls store q (store_calls w)
         + failures q self ts w
         + if decide ((q ∉ queues (managers w self))
                      ∧ q ∈ queues (managers (register_all self ts w) self))
           then 1 else 0)%nat.
Proof.
  induction ts as [|t ts IH]; intros w Hstore.
  - change (register_all self [] w) with w. split; [done|].
    rewrite decide_False by tauto. simpl. lia.
  - change (register_all self (t :: ts) w)
      with (register_all self ts (TaskManager.register self t w).2).
    cbn [failures].
    pose proof (register_step self t w) as (Hs & _ & Hstep).
    cbv zeta in Hs, Hstep.
    destruct (TaskManager.register self t w) as [outcome w1].
    cbn [fst snd] in *.
    destruct (IH w1 ltac:(congruence)) as [Hsub Heq]. clear IH.
    rewrite Heq. clear Heq.
    set (wf := register_all self ts w1) in *.
    destruct (decide (queue t ∈ queues (managers w self))) as [Hin|Hnot].
    + destruct Hstep as (-> & -> & _ & Hq). rewrite Hq in *.
      split; [done|]. simpl. lia.
    + destruct Hstep as (Ho & -> & Hq).
      rewrite calls_app. simpl. rewrite Hstore.
      assert (Hrq : bool_decide (store = store ∧ queue t = q)
                    = bool_decide (queue t = q)).
      { clear. apply bool_decide_ext. tauto. }
      rewrite Hrq. clear Hrq Ho.
      destruct outcome as [[]|e]; simpl in Hq.
      * split; [rewrite Hq in Hsub; clear -Hsub; set_solver|].
        case_bool_decide as Hqt.
        -- subst q.
           rewrite (decide_False (P := _ ∧ _))
             by (rewrite Hq; clear; set_solver).
           rewrite decide_True
             by (rewrite Hq in Hsub; clear -Hsub Hnot; set_solver).
           simpl. lia.
        -- assert (Hiff : (q ∉ queues (managers w1 self)) ↔
                          (q ∉ queues (managers w self)))
             by (rewrite Hq; clear -Hqt; set_solver).
           simpl. repeat case_decide; try lia; exfalso; tauto.
      * rewrite Hq in *. split; [done|]. case_bool_decide; simpl; lia.
Qed.

(** A queue that is known is never asked for: no registration naming it
    can raise. *)
Lemma known_no_failure (self : ManagerRef) (q : string) (ts : list Task) :
  ∀ w : World, q ∈ queues (managers w self) → failures q self ts w = 0%nat.
Proof.
  induction ts as [|t ts IH]; intros w Hq; [done|].
  cbn [failures].
  pose proof (register_step self t w) as (_ & _ & Hstep). cbv zeta in Hstep.
  destruct (TaskManager.register self t w) as [outcome w1]. cbn [fst snd] in *.
  destruct (decide (queue t ∈ queues (managers w self))) as [Hin|Hnot].
  - destruct Hstep as (-> & _ & _ & Hq1).
    rewrite IH by (by rewrite Hq1). done.
  - destruct Hstep as (_ & _ & Hq1).
    assert (Hne : queue t ≠ q) by (intros Heq; apply Hnot; by rewrite Heq).
    rewrite IH.
    + destruct outcome; [done|]. by rewrite bool_decide_false.
    + rewrite Hq1. clear -Hq. destruct outcome; set_solver.
Qed.

(** A queue that a task of the run names is known at the end when no
    registration naming it raised. *)
Lemma named_known (self : ManagerRef) (q : string) (ts : list Task) :
  ∀ w : World,
    q ∈ queue <$> ts → failures q self ts w = 0%nat →
    q ∈ queues (managers (register_all self ts w) self).
Proof.
  induction ts as [|t ts IH]; intros w Hq Hf.
  { by apply elem_of_nil in Hq. }
  change (register_all self (t :: ts) w)
    with (register_all self ts (TaskManager.register self t w).2).
  cbn [failures] in Hf. rewrite fmap_cons in Hq.
  pose proof (register_step self t w) as (_ & _ & Hstep). cbv zeta in Hstep.
  destruct (TaskManager.register self t w) as [outcome w1]. cbn [fst snd] in *.
  destruct (decide (queue t = q)) as [Hqt|Hqt].
  - assert (Hk : q ∈ queues (managers w1 self)).
    { subst q. destruct (decide (queue t ∈ queues (managers w self))).
      - by destruct Hstep as (_ & _ & _ & ->).
      - destruct Hstep as (_ & _ & ->).
        destruct outcome; [clear; set_solver|].
        rewrite bool_decide_true in Hf by done. lia. }
    by apply (register_run_calls self (job_store (managers w1 self)) q ts w1).
  - apply elem_of_cons in Hq as [->|Hq]; [done|].
    apply IH; [done|]. lia.
Qed.

(** C5, amended: for every manager and every queue, over any run of
    registrations on the manager, [register_queue] is asked of the
    manager's store for that queue once at each registration that names
    it while it is not known: once for every such call that raises, and
    once for the call that returns and makes the queue known.  So a queue
    that was not known and that a task of the run names is asked for
    exactly once when no call for that queue raises, whatever happens to
    other queues; a queue that is known is never asked for.  Registering
    a task whose queue is known asks nothing of the store; registering
    one whose queue is not known asks for that queue, once. *)
Theorem register_queue_once (self : ManagerRef) (ts : list Task) (q : string)
    (w : World) :
  let store := job_store (managers w self) in
  let wf := register_all self ts w in
  let before := register_queue_calls store q (store_calls w) in
  let after := register_queue_calls store q (store_calls wf) in
  after
  = (before + failures q self ts w
     + if decide ((q ∉ queues (managers w self))
                  ∧ q ∈ queues (managers wf self))
       then 1 else 0)%nat
  ∧ (q ∈ queue <$> ts → q ∉ queues (managers w self) →
     failures q self ts w = 0%nat → after = (before + 1)%nat)
  ∧ (q ∈ queues (managers w self) → after = before)
  ∧ (∀ (task : Task) (w1 : World),
       queue task ∈ queues (managers w1 self) →
       store_calls (TaskManager.register self task w1).2 = store_calls w1)
  ∧ (∀ (task : Task) (w1 : World),
       queue task ∉ queues (managers w1 self) →
       store_calls (TaskManager.register self task w1).2
       = store_calls w1
         ++ [RegisterQueue (job_store (managers w1 self)) (queue task)]).
Proof.
  cbv zeta.
  destruct (register_run_calls self (job_store (managers w self)) q ts w eq_refl)
    as [_ Heq].
  split; [done|]. split; [|split; [|split]].
  - intros Hq Hnot Hf. rewrite Heq, Hf.
    rewrite decide_True by (split; [done|by apply named_known]). lia.
  - intros Hq. rewrite Heq, known_no_failure by done.
    rewrite decide_False by tauto. lia.
  - intros task w1 Hin.
    pose proof (register_step self task w1) as (_ & _ & Hstep). simpl in Hstep.
    rewrite decide_True in Hstep by done. by destruct Hstep as (_ & -> & _).
  - intros task w1 Hnot.
    pose proof (register_step self task w1) as (_ & _ & Hstep). simpl in Hstep.
    rewrite decide_False in Hstep by done. by destruct Hstep as (_ & -> & _).
Qed.

(** C6: when the store's [register_queue] raises during a registration,
    [register] raises the same exception; the task is in the manager's
    tasks under its name all the same, and the queue is not among the
    manager's known queues, which are as they were. *)
Theorem register_provisioning_fails (self : ManagerRef) (task : Task)
    (w : World) (e : Exn) (state : StoreState) :
  queue task ∉ queues (managers w self) →
  register_queue (queue task) (stores w (job_store (managers w self)))
  = (Raised e, state) →
  ∃ w',
    TaskManager.register self task w = (Raised e, w')
    ∧ tasks (managers w' self) = <[name task := task]> (tasks (managers w self))
    ∧ tasks (managers w' self) !! name task = Some task
    ∧ queues (managers w' self) = queues (managers w self)
    ∧ queue task ∉ queues (managers w' self).
Proof.
  intros Hnot Hfail.
  pose proof (register_step self task w) as (_ & Ht & Hstep). simpl in Ht, Hstep.
  rewrite decide_False in Hstep by done. rewrite Hfail in Hstep. simpl in Hstep.
  destruct (TaskManager.register self task w) as [outcome w'].
  simpl in *. destruct Hstep as (-> & _ & Hq).
  exists w'. rewrite Hq, Ht, lookup_insert_eq. done.
Qed.

End RegisterClaims.

(** * Further properties *)

(** ** Task.__init__ and Task.configure *)

Section MoreConfigure.
Context `{JS : JobStore}.

(** X1: a task keeps the function, the manager and the queue it was made
    with; it is named by the name given when that is a non-empty string
    and by the function's [__name__] when no name or the empty string is
    given, so its name is empty only if the function's is. *)
Theorem init_name (f : Callable) (m : ManagerRef) (q : string)
    (n : option string) :
  func (Task.__init__ f m q n) = f
  ∧ manager (Task.__init__ f m q n) = m
  ∧ queue (Task.__init__ f m q n) = q
  ∧ name (Task.__init__ f m q None) = __name__ f
  ∧ name (Task.__init__ f m q (Some "")) = __name__ f
  ∧ (∀ s, s ≠ "" → name (Task.__init__ f m q (Some s)) = s)
  ∧ (__name__ f ≠ "" → name (Task.__init__ f m q n) ≠ "").
Proof.
  do 5 (split; [done|]). split.
  - intros s Hs. unfold Task.__init__. simpl. by rewrite bool_decide_true.
  - intros Hf. unfold Task.__init__. simpl.
    destruct n as [s|]; simpl; [|done]. by case_bool_decide.
Qed.

(** X2: without [schedule_in], [configure] always returns: the job is
    scheduled at [schedule_at] as given (unset when none is given) and
    carries the keyword arguments given (none when none is given); the
    clock is not read, the outcome is the same at any time. *)
Theorem configure_without_schedule_in (self : Task) (lock : option string)
    (task_kwargs : option JSONDict) (schedule_at : option DateTime)
    (w : World) :
  (∃ job w',
     Task.configure self lock task_kwargs schedule_at None w = (Returned job, w')
     ∧ jobs.scheduled_at job = schedule_at
     ∧ jobs.task_kwargs job = default ∅ task_kwargs)
  ∧ ∀ now : DateTime,
      (Task.configure self lock task_kwargs schedule_at None
         (pendulum.test now w)).1
      = (Task.configure self lock task_kwargs schedule_at None w).1.
Proof.
  split.
  - rewrite configure_unfold by apply not_both_None_r.
    eexists _, _. split; [done|]. split; [done|]. simpl.
    destruct task_kwargs as [d|]; simpl; [|done].
    case_bool_decide; [done|by subst].
  - intros now. by rewrite !configure_unfold by apply not_both_None_r.
Qed.

(** X3: given a lock that is not the empty string, [configure] keeps it
    as it is, carries the keyword arguments as given, and returns in the
    very world it was called in: nothing is read from the random source. *)
Theorem configure_with_lock (self : Task) (s : string)
    (task_kwargs : option JSONDict) (schedule_at : option DateTime)
    (schedule_in : option (gmap string Z)) (w w' : World) (job : jobs.Job) :
  s ≠ "" →
  Task.configure self (Some s) task_kwargs schedule_at schedule_in w
  = (Returned job, w') →
  jobs.lock job = s
  ∧ jobs.task_kwargs job = default ∅ task_kwargs
  ∧ w' = w.
Proof.
  intros Hs H. apply configure_returned in H as [[scheduled ->] ->]. simpl.
  rewrite bool_decide_true by done. split; [done|]. split; [|done].
  destruct task_kwargs as [d|]; simpl; [|done].
  case_bool_decide; [done|by subst].
Qed.

(** X4: a [configure] call that raises leaves the world as it found it,
    even without a lock: no random read is taken before the schedule is
    settled.  It raises for two reasons only: both ways to schedule were
    given, or the clock library refused the duration. *)
Theorem configure_raises (self : Task) (lock : option string)
    (task_kwargs : option JSONDict) (schedule_at : option DateTime)
    (schedule_in : option (gmap string Z)) (w w' : World) (e : Exn) :
  Task.configure self lock task_kwargs schedule_at schedule_in w
  = (Raised e, w') →
  w' = w
  ∧ ((is_Some schedule_at ∧ is_Some schedule_in
      ∧ e = ValueError "Cannot set both schedule_at and schedule_in")
     ∨ (schedule_at = None
        ∧ ∃ kwargs, schedule_in = Some kwargs
                    ∧ pendulum.add (utcnow w) kwargs = Raised e)).
Proof.
  destruct schedule_at as [t|], schedule_in as [kwargs|].
  - intros [= <- <-]. split; [done|]. left. eauto.
  - rewrite configure_unfold by done. discriminate.
  - rewrite configure_unfold by done.
    destruct (pendulum.add (utcnow w) kwargs) eqn:Hadd; [discriminate|].
    intros [= <- <-]. split; [done|]. right. eauto.
  - rewrite configure_unfold by done. discriminate.
Qed.

End MoreConfigure.

(** ** Task.defer *)

Section MoreDefer.
Context `{JS : JobStore}.

(** X5: [Task.defer] gives the caller no say on the lock or the schedule.
    With keyword arguments that have no key named ["self"], it configures
    a job with no argument at all and calls that job's [defer] with the
    keyword arguments: the job has a generated lock, no [scheduled_at], no
    id, no keyword argument yet and the task's name and queue, and by then
    one random read was taken and nothing else has moved.  With a key
    named ["self"] the call raises a [TypeError] and nothing is read or
    configured. *)
Theorem defer_submits_unscheduled (self : Task) (task_kwargs : JSONDict)
    (w : World) :
  if decide ("self" ∈ dom task_kwargs) then
    Task.defer self task_kwargs w
    = (Raised (TypeError "defer() got multiple values for argument 'self'"), w)
  else
    ∃ job w1,
      Task.configure self None None None None w = (Returned job, w1)
      ∧ Task.defer self task_kwargs w = Job.defer job task_kwargs w1
      ∧ jobs.id job = None
      ∧ jobs.scheduled_at job = None
      ∧ jobs.task_kwargs job = ∅
      ∧ jobs.task_name job = name self
      ∧ jobs.queue job = queue self
      ∧ jobs.lock job
        = uuid.str (uuid.UUID (urandom w (urandom_reads w) mod 2 ^ 128))
      ∧ w1 = set_urandom_reads (S (urandom_reads w)) w.
Proof.
  case_decide as Hself; [by apply bind_kwargs_self|].
  unfold Task.defer. rewrite bind_kwargs_other by done. run.
  rewrite configure_unfold by done. simpl.
  eexists _, _. split; [done|]. split; [|by repeat split].
  by destruct (Job.defer _ _ _) as [[?|?] ?].
Qed.

End MoreDefer.

(** ** TaskManager.register, one call *)

Section MoreRegister.
Context `{JS : JobStore}.

(** What a registration leaves alone, and what it logs. *)
Lemma register_rest (self : ManagerRef) (task : Task) (w : World) :
  let m := managers w self in
  let w' := (TaskManager.register self task w).2 in
  (∀ r, r ≠ self → managers w' r = managers w r)
  ∧ (∀ s, s ≠ job_store m → stores w' s = stores w s)
  ∧ utcnow w' = utcnow w
  ∧ urandom w' = urandom w
  ∧ urandom_reads w' = urandom_reads w
  ∧ next_manager w' = next_manager w
  ∧ next_store w' = next_store w
  ∧ log_records w'
    = log_records w
      ++ (if decide (queue task ∈ queues m) then []
          else [mkLogRecord "Creating queue (if not already existing)"
                  [("action", "create_queue"); ("queue", queue task)]]).
Proof.
  unfold TaskManager.register. run. unfold set_managers at 2 3 4. simpl.
  rewrite !fn_lookup_insert. simpl.
  destruct (decide (queue task ∈ queues (managers w self))) as [Hin|Hnot].
  - rewrite decide_False by (intros H; by apply H). simpl.
    rewrite app_nil_r. split_and!; try reflexivity.
    intros r Hr. by rewrite fn_lookup_insert_ne.
  - rewrite decide_True by done.
    unfold store_register_queue. simpl. rewrite ?fn_lookup_insert. simpl.
    destruct (register_queue _ _) as [[[]|e] state]; simpl;
      (split_and!; try reflexivity;
       [intros r Hr; by rewrite ?fn_lookup_insert_ne
       |intros s Hs; by rewrite fn_lookup_insert_ne]).
Qed.

(** X6: a registration on one manager writes to that manager only: every
    other manager is as before, so is the manager's own store reference,
    every store but that one, the clock and the random source.  It logs
    the creation of the queue exactly when the queue is not known. *)
Theorem register_frame (self : ManagerRef) (task : Task) (w : World) :
  let w' := (TaskManager.register self task w).2 in
  (∀ r, r ≠ self → managers w' r = managers w r)
  ∧ job_store (managers w' self) = job_store (managers w self)
  ∧ (∀ s, s ≠ job_store (managers w self) → stores w' s = stores w s)
  ∧ utcnow w' = utcnow w
  ∧ urandom_reads w' = urandom_reads w
  ∧ (queue task ∈ queues (managers w self) → log_records w' = log_records w)
  ∧ (queue task ∉ queues (managers w self) →
     log_records w'
     = log_records w
       ++ [mkLogRecord "Creating queue (if not already existing)"
             [("action", "create_queue"); ("queue", queue task)]]).
Proof.
  pose proof (register_rest self task w) as (Hm & Hs & Hc & _ & Hr & _ & _ & Hl).
  pose proof (register_step self task w) as (Hj & _).
  cbv zeta in *. do 5 (split; [done|]). split; intros Hq.
  - rewrite Hl, decide_True by done. by rewrite app_nil_r.
  - by rewrite Hl, decide_False.
Qed.

(** X7: a registration never refuses a name: the task is in the registry
    under its name afterwards, in place of any task that was there, and
    every other name is bound as before.  If [register] raises, the queue
    was not known and the exception is the one the store raised. *)
Theorem register_overwrites (self : ManagerRef) (task : Task) (w : World) :
  let w' := (TaskManager.register self task w).2 in
  tasks (managers w' self) !! name task = Some task
  ∧ (∀ n, n ≠ name task →
       tasks (managers w' self) !! n = tasks (managers w self) !! n)
  ∧ ∀ e, (TaskManager.register self task w).1 = Raised e →
      (queue task ∉ queues (managers w self))
      ∧ (register_queue (queue task)
           (stores w (job_store (managers w self)))).1 = Raised e.
Proof.
  pose proof (register_step self task w) as (_ & Ht & Hstep). cbv zeta in *.
  rewrite Ht. split; [apply lookup_insert_eq|].
  split; [intros n Hn; by apply lookup_insert_ne|].
  intros e He.
  destruct (decide (queue task ∈ queues (managers w self))) as [Hin|Hnot].
  - destruct Hstep as (Ho & _). congruence.
  - destruct Hstep as (Ho & _). split; [done|congruence].
Qed.

(** X8: registering again a task whose registration returned changes
    nothing: the second call returns, asks nothing of the store, logs
    nothing, and leaves every manager, the stores and the record of calls
    as the first call left them. *)
Theorem register_again (self : ManagerRef) (task : Task) (w w1 : World) :
  TaskManager.register self task w = (Returned tt, w1) →
  ∃ w2,
    TaskManager.register self task w1 = (Returned tt, w2)
    ∧ (∀ r, managers w2 r = managers w1 r)
    ∧ stores w2 = stores w1
    ∧ store_calls w2 = store_calls w1
    ∧ log_records w2 = log_records w1.
Proof.
  intros H1.
  pose proof (register_step self task w) as (_ & Ht1 & Hstep1).
  cbv zeta in *. rewrite H1 in *. simpl in *.
  assert (Hknown : queue task ∈ queues (managers w1 self)).
  { destruct (decide (queue task ∈ queues (managers w self))).
    - destruct Hstep1 as (_ & _ & _ & ->). done.
    - destruct Hstep1 as (_ & _ & ->). set_solver. }
  pose proof (register_step self task w1) as (Hj & Ht & Hstep).
  pose proof (register_rest self task w1) as (Hm & _ & _ & _ & _ & _ & _ & Hl).
  cbv zeta in *.
  rewrite decide_True in Hstep by done. rewrite decide_True in Hl by done.
  destruct (TaskManager.register self task w1) as [outcome w2]. simpl in *.
  destruct Hstep as (-> & Hc & Hs & Hq).
  exists w2. split; [done|]. split; [|by rewrite Hl, app_nil_r].
  intros r. destruct (decide (r = self)) as [->|Hr]; [|by apply Hm].
  destruct (managers w2 self), (managers w1 self). simpl in *. subst.
  by rewrite insert_insert_eq.
Qed.

End MoreRegister.

(** ** TaskManager.register, any run *)

Section MoreRuns.
Context `{JS : JobStore}.

Lemma register_all_cons (self : ManagerRef) (t : Task) (ts : list Task)
    (w : World) :
  register_all self (t :: ts) w
  = register_all self ts (TaskManager.register self t w).2.
Proof. done. Qed.

(** What any run of registrations keeps, whether its calls to the store
    returned or raised. *)
Lemma register_run_any (self : ManagerRef) (store : StoreRef) (q : string)
    (ts : list Task) :
  ∀ w : World,
    job_store (managers w self) = store →
    let wf := register_all self ts w in
    let before := register_queue_calls store q (store_calls w) in
    let after := register_queue_calls store q (store_calls wf) in
    job_store (managers wf self) = store
    ∧ queues (managers w self) ⊆ queues (managers wf self)
    ∧ queues (managers wf self)
      ⊆ queues (managers w self) ∪ list_to_set (queue <$> ts)
    ∧ tasks (managers wf self)
      = foldl (λ m t, <[name t := t]> m) (tasks (managers w self)) ts
    ∧ (before ≤ after ≤ before + naming q ts)%nat
    ∧ (q ∈ queue <$> ts →
       q ∈ queues (managers w self) ∨ (before < after)%nat)
    ∧ (q ∈ queues (managers wf self) →
       q ∈ queues (managers w self) ∨ (before < after)%nat).
Proof.
  induction ts as [|t ts IH]; intros w Hstore; cbv zeta.
  - change (register_all self [] w) with w. unfold naming. simpl.
    split_and!; try done; try lia; set_solver.
  - rewrite register_all_cons.
    pose proof (register_step self t w) as (Hs & Ht & Hstep). cbv zeta in *.
    set (w1 := (TaskManager.register self t w).2) in *.
    assert (Hstore1 : job_store (managers w1 self) = store) by congruence.
    destruct (IH w1 Hstore1) as (Hj & Hsub & Hsup & Htasks & Hbnd & Hin & Hkn).
    clear IH. rewrite fmap_cons.
    assert (Hnaming : naming q (t :: ts)
                      = ((if bool_decide (queue t = q) then 1 else 0)
                         + naming q ts)%nat).
    { unfold naming. simpl. by case_bool_decide. }
    rewrite Hnaming. simpl foldl. rewrite <- Ht.
    destruct (decide (queue t ∈ queues (managers w self))) as [Hknown|Hnew].
    + destruct Hstep as (_ & Hc & _ & Hq). rewrite Hc, Hq in *.
      split; [done|]. split; [done|].
      split; [clear -Hsup; set_solver|].
      split; [done|]. split; [case_bool_decide; lia|]. split; [|done].
      intros Hq'. apply elem_of_cons in Hq' as [->|Hq']; [by left|by apply Hin].
    + destruct Hstep as (_ & Hc & Hq).
      assert (Hcount : register_queue_calls store q (store_calls w1)
                       = (register_queue_calls store q (store_calls w)
                          + if bool_decide (queue t = q) then 1 else 0)%nat).
      { rewrite Hc, calls_app. simpl. rewrite Hstore.
        f_equal. clear. repeat case_bool_decide; naive_solver. }
      assert (Hq1 : queues (managers w self) ⊆ queues (managers w1 self)
                    ∧ queues (managers w1 self)
                      ⊆ {[queue t]} ∪ queues (managers w self)).
      { rewrite Hq. clear.
        destruct (TaskManager.register self t w).1; set_solver. }
      destruct Hq1 as [Hq1 Hq2]. rewrite Hcount in *.
      split; [done|]. split; [by etrans|].
      split.
      { clear -Hsup Hq2. rewrite list_to_set_cons. intros x Hx.
        apply Hsup, elem_of_union in Hx as [Hx|Hx]; [apply Hq2 in Hx|];
          set_solver. }
      split; [done|]. split; [case_bool_decide; lia|]. split.
      * intros Hq'. case_bool_decide as Hqt; [right; lia|].
        apply elem_of_cons in Hq' as [->|Hq']; [done|].
        destruct (Hin Hq') as [Hk|Hlt]; [|right; lia].
        left. clear -Hk Hq2 Hqt. set_solver.
      * intros Hq'. case_bool_decide as Hqt; [right; lia|].
        destruct (Hkn Hq') as [Hk|Hlt]; [|right; lia].
        left. clear -Hk Hq2 Hqt. set_solver.
Qed.

End MoreRuns.

Section MoreRunClaims.
Context `{JS : JobStore}.

Lemma foldl_insert_notin (ts : list Task) :
  ∀ (m : gmap string Task) (n : string),
    n ∉ name <$> ts →
    foldl (λ m t, <[name t := t]> m) m ts !! n = m !! n.
Proof.
  induction ts as [|t ts IH]; intros m n Hn; [done|].
  rewrite fmap_cons in Hn. apply not_elem_of_cons in Hn as [Hne Hn].
  simpl. rewrite IH by done. by apply lookup_insert_ne.
Qed.

Lemma foldl_insert_from (ts : list Task) :
  ∀ (m : gmap string Task) (n : string) (t : Task),
    foldl (λ m t, <[name t := t]> m) m ts !! n = Some t →
    t ∈ ts ∨ m !! n = Some t.
Proof.
  induction ts as [|t0 ts IH]; intros m n t H; [by right|].
  simpl in H. apply IH in H as [H|H]; [left; by right|].
  destruct (decide (name t0 = n)) as [<-|Hne].
  - rewrite lookup_insert_eq in H. injection H as ->. left. by left.
  - rewrite lookup_insert_ne in H by done. by right.
Qed.

(** When every registration of a run returned, every queue named in the
    run is known at the end. *)
Lemma run_returned_known (self : ManagerRef) (ts : list Task) :
  ∀ w : World,
    all_returned self ts w = true →
    list_to_set (queue <$> ts) ⊆ queues (managers (register_all self ts w) self).
Proof.
  induction ts as [|t ts IH]; intros w Hret; [set_solver|].
  rewrite register_all_cons, fmap_cons. cbn [all_returned] in Hret.
  pose proof (register_step self t w) as (_ & _ & Hstep). cbv zeta in Hstep.
  destruct (TaskManager.register self t w) as [[[]|e] w1]; [|discriminate].
  cbn [fst snd] in *.
  pose proof (register_run_any self (job_store (managers w1 self)) "" ts w1
                eq_refl) as (_ & Hsub & _).
  cbv zeta in Hsub. specialize (IH w1 Hret).
  assert (queue t ∈ queues (managers w1 self)).
  { destruct (decide (queue t ∈ queues (managers w self))).
    - by destruct Hstep as (_ & _ & _ & ->).
    - destruct Hstep as (_ & _ & ->). set_solver. }
  set_solver.
Qed.

(** X9: over any run of registrations on a manager, whatever the store
    answers, the known queues never shrink, and a queue is known at the
    end only if it was known at the start or is named by a task of the
    run. *)
Theorem queues_only_grow (self : ManagerRef) (ts : list Task) (w : World) :
  queues (managers w self) ⊆ queues (managers (register_all self ts w) self)
  ∧ queues (managers (register_all self ts w) self)
    ⊆ queues (managers w self) ∪ list_to_set (queue <$> ts).
Proof.
  pose proof (register_run_any self (job_store (managers w self)) "" ts w
                eq_refl) as (_ & Hsub & Hsup & _).
  done.
Qed.

(** X10: over any run of registrations on a manager, whatever the store
    answers, the manager's store is asked for a queue at most once for
    each registration that names it, and never for a queue that no task
    of the run names. *)
Theorem register_queue_at_most (self : ManagerRef) (ts : list Task)
    (q : string) (w : World) :
  let store := job_store (managers w self) in
  let before := register_queue_calls store q (store_calls w) in
  let after :=
    register_queue_calls store q (store_calls (register_all self ts w)) in
  (before ≤ after ≤ before + naming q ts)%nat
  ∧ (q ∉ queue <$> ts → after = before).
Proof.
  pose proof (register_run_any self (job_store (managers w self)) q ts w
                eq_refl) as (_ & _ & _ & _ & Hbnd & _).
  cbv zeta in *. split; [done|]. intros Hq.
  assert (naming q ts = 0%nat); [|lia].
  unfold naming. clear Hbnd. induction ts as [|t ts IH]; [done|].
  rewrite fmap_cons in Hq. apply not_elem_of_cons in Hq as [Hne Hq].
  simpl. rewrite bool_decide_false by done. by apply IH.
Qed.

(** X11: on a manager just made, over any run of registrations, the store
    is asked at least once for every queue a task of the run names, even
    if it raises each time; and a queue known at the end is one the store
    was asked for. *)
Theorem register_queue_at_least (store : StoreRef) (w w0 : World)
    (self : ManagerRef) (ts : list Task) (q : string) :
  TaskManager.__init__ (Some store) w = (Returned self, w0) →
  let before := register_queue_calls store q (store_calls w0) in
  let after :=
    register_queue_calls store q (store_calls (register_all self ts w0)) in
  (q ∈ queue <$> ts → (before < after)%nat)
  ∧ (q ∈ queues (managers (register_all self ts w0) self) →
     (before < after)%nat ∧ q ∈ queue <$> ts).
Proof.
  intros Hinit. apply init_fresh in Hinit as [Hm _].
  assert (Hstore : job_store (managers w0 self) = store) by (by rewrite Hm).
  pose proof (register_run_any self store q ts w0 Hstore)
    as (_ & _ & Hsup & _ & _ & Hin & Hkn).
  cbv zeta in *. rewrite Hm in *. simpl in *. split.
  - intros Hq. destruct (Hin Hq) as [Hk|Hlt]; [set_solver|done].
  - intros Hq. split.
    + destruct (Hkn Hq) as [Hk|Hlt]; [set_solver|done].
    + set_solver.
Qed.

(** X12: over any run of registrations on a manager, whatever the store
    answers, the registry ends as the tasks written one after the other
    under their names: the last task registered under a name is the one
    bound to it, and a name no task of the run bears is bound as before. *)
Theorem last_registration_wins (self : ManagerRef) (ts : list Task) (w : World) :
  let registry := tasks (managers (register_all self ts w) self) in
  registry = foldl (λ m t, <[name t := t]> m) (tasks (managers w self)) ts
  ∧ (∀ ts1 t ts2,
       ts = ts1 ++ t :: ts2 → name t ∉ name <$> ts2 →
       registry !! name t = Some t)
  ∧ (∀ n, n ∉ name <$> ts → registry !! n = tasks (managers w self) !! n).
Proof.
  pose proof (register_run_any self (job_store (managers w self)) "" ts w
                eq_refl) as (_ & _ & _ & Ht & _).
  cbv zeta in *. rewrite Ht. split; [done|]. split.
  - intros ts1 t ts2 -> Hlast.
    rewrite foldl_app. simpl. rewrite foldl_insert_notin by done.
    apply lookup_insert_eq.
  - intros n Hn. by apply foldl_insert_notin.
Qed.

(** X13: on a manager just made, when every registration of a run
    returned, the known queues are exactly the queues the tasks of the run
    name, and every task in the registry is a task of the run whose queue
    is known. *)
Theorem registered_queues_known (store : StoreRef) (w w0 : World)
    (self : ManagerRef) (ts : list Task) :
  TaskManager.__init__ (Some store) w = (Returned self, w0) →
  all_returned self ts w0 = true →
  let m := managers (register_all self ts w0) self in
  queues m = list_to_set (queue <$> ts)
  ∧ ∀ n t, tasks m !! n = Some t → t ∈ ts ∧ queue t ∈ queues m.
Proof.
  intros Hinit Hret. apply init_fresh in Hinit as [Hm _].
  pose proof (register_run_any self (job_store (managers w0 self)) "" ts w0
                eq_refl) as (_ & _ & Hsup & Ht & _).
  pose proof (run_returned_known self ts w0 Hret) as Hsub.
  cbv zeta in *. rewrite Hm in *. simpl in *.
  assert (Hq : queues (managers (register_all self ts w0) self)
               = list_to_set (queue <$> ts)) by set_solver.
  split; [done|]. intros n t Hnt. rewrite Ht in Hnt.
  apply foldl_insert_from in Hnt as [Hin|Hnone]; [|by rewrite lookup_empty in Hnone].
  split; [done|]. rewrite Hq. apply elem_of_list_to_set, list_elem_of_fmap.
  eauto.
Qed.

End MoreRunClaims.

(** ** TaskManager.__init__ and TaskManager.task *)

Section MoreManager.
Context `{JS : JobStore}.

(** X14: a manager starts with no task and no known queue; making it asks
    nothing of any store and leaves every manager there was as it is.
    Given a store, the manager holds it and no store has moved; given
    none, it holds a [PostgresJobStore] built for it, every store there
    was is as before, and if that store cannot be built the exception
    comes out and no manager was made. *)
Theorem init_manager (job_store_arg : option StoreRef) (w : World) :
  match job_store_arg, PostgresJobStore with
  | None, Raised e => TaskManager.__init__ None w = (Raised e, w)
  | _, _ =>
      ∃ w0,
        TaskManager.__init__ job_store_arg w = (Returned (next_manager w), w0)
        ∧ tasks (managers w0 (next_manager w)) = ∅
        ∧ queues (managers w0 (next_manager w)) = ∅
        ∧ job_store (managers w0 (next_manager w))
          = default (next_store w) job_store_arg
        ∧ (∀ r, r ≠ next_manager w → managers w0 r = managers w r)
        ∧ store_calls w0 = store_calls w
        ∧ match job_store_arg with
          | Some _ => stores w0 = stores w
          | None =>
              Returned (stores w0 (next_store w)) = PostgresJobStore
              ∧ ∀ s, s ≠ next_store w → stores w0 s = stores w s
          end
  end.
Proof.
  unfold TaskManager.__init__.
  destruct job_store_arg as [store|]; [|destruct PostgresJobStore as [state|e]];
    run; unfold set_next_manager, set_managers, set_next_store, set_stores;
    simpl.
  - eexists. split; [done|]. simpl. rewrite fn_lookup_insert.
    split_and!; try done. intros r Hr. by rewrite fn_lookup_insert_ne.
  - eexists. split; [done|]. simpl. rewrite !fn_lookup_insert.
    split_and!; try done; intros r Hr; by rewrite fn_lookup_insert_ne.
  - done.
Qed.

(** X17: the store a task's jobs go to is the store of the manager the
    task points to, read when the job is configured; registering the task,
    on that manager or on any other, does not change it. *)
Theorem register_keeps_job_store (self : ManagerRef) (registered task : Task)
    (lock : option string) (task_kwargs : option JSONDict)
    (schedule_at : option DateTime) (schedule_in : option (gmap string Z))
    (w w' : World) (job : jobs.Job) :
  Task.configure task lock task_kwargs schedule_at schedule_in
    (TaskManager.register self registered w).2
  = (Returned job, w') →
  jobs.job_store job = job_store (managers w (manager task)).
Proof.
  intros H. apply configure_returned in H as [[scheduled ->] _]. simpl.
  pose proof (register_step self registered w) as (Hj & _).
  pose proof (register_rest self registered w) as (Hm & _).
  cbv zeta in *.
  destruct (decide (manager task = self)) as [->|Hne]; [done|].
  by rewrite Hm.
Qed.

End MoreManager.

Section MoreTask.
Context `{JS : JobStore} `{FT : Functools}.

(** X15: the two ways to call [task] agree.  Without a function it only
    returns the decorator: nothing is registered, the world does not
    move.  Applying that decorator to a function, at any later time, is
    what calling [task] with the function does at that time. *)
Theorem task_forms_agree (self : ManagerRef) (f : Callable)
    (q : option string) (n : option string) (w : World) :
  ∃ wrap,
    TaskManager.task self None q n w = (Returned (TaskManager.Decorator wrap), w)
    ∧ ∀ w1,
        (t ← wrap f; mret (TaskManager.Wrapped t)) w1
        = TaskManager.task self (Some f) q n w1.
Proof.
  unfold TaskManager.task. run. eexists. split; [done|]. done.
Qed.

(** X16: given a function, [task] makes the task of that function on this
    manager, on the queue given or on ["default"], under the name given
    or the function's, and registers it.  When the registration raises,
    [task] raises the same and leaves the world the registration left.
    When it returns, [task] returns the task as [update_wrapper] leaves
    it, and that is what the registry then holds under the name the task
    was registered with; every other name, the known queues, among them
    the queue the task was made with, and the calls to the store are as
    the registration left them. *)
Theorem task_declares (self : ManagerRef) (f : Callable)
    (q : option string) (n : option string) (w : World) :
  let t := Task.__init__ f self (default "default" q) n in
  match TaskManager.register self t w with
  | (Raised e, w1) => TaskManager.task self (Some f) q n w = (Raised e, w1)
  | (Returned _, w1) =>
      ∃ w',
        TaskManager.task self (Some f) q n w
        = (Returned (TaskManager.Wrapped (update_wrapper t f)), w')
        ∧ tasks (managers w' self) !! name t = Some (update_wrapper t f)
        ∧ (∀ n', n' ≠ name t →
             tasks (managers w' self) !! n' = tasks (managers w1 self) !! n')
        ∧ queues (managers w' self) = queues (managers w1 self)
        ∧ queue t ∈ queues (managers w' self)
        ∧ store_calls w' = store_calls w1
        ∧ stores w' = stores w1
  end.
Proof.
  cbv zeta. unfold TaskManager.task, TaskManager._wrap, TaskManager.written.
  run.
  set (t := Task.__init__ f self (default "default" q) n).
  pose proof (register_step self t w) as (_ & _ & Hstep). cbv zeta in Hstep.
  destruct (TaskManager.register self t w) as [[[]|e] w1]; [|done].
  cbn [fst snd] in *.
  eexists. split; [done|]. unfold set_managers. simpl.
  rewrite fn_lookup_insert. simpl.
  split; [apply lookup_insert_eq|].
  split; [intros n' Hn'; by apply lookup_insert_ne|].
  split; [done|]. split; [|done].
  destruct (decide (queue t ∈ queues (managers w self))).
  - by destruct Hstep as (_ & _ & _ & ->).
  - destruct Hstep as (_ & _ & ->). clear. set_solver.
Qed.

End MoreTask.

(** ** The claims on a store in memory *)

#[local] Existing Instance memory.store.
#[local] Existing Instance memory.functions.
#[local] Existing Instance memory.functools.

(** The unit tests of the module, replayed. *)

Example test_task_init_with_no_name :
  func memory.task_a = memory.task_func ∧ name memory.task_a = "task_func".
Proof. done. Qed.

Example test_task_init_explicit_name : name memory.task_c = "bla".
Proof. done. Qed.

Example test_task_defer :
  let w := (store_register_queue 0 "queue" (memory.world memory.empty)).2 in
  (Task.defer memory.task_a {[ "c" := JNumber 3 ]} w).1 = Returned 0
  ∧ memory.jobs (stores (Task.defer memory.task_a {[ "c" := JNumber 3 ]} w).2 0%nat)
    !! "queue"
    = Some [jobs.mkJob (Some 0) "01234567-89ab-4def-8123-456789abcdef"
              "task_func" "queue" {[ "c" := JNumber 3 ]} None 0].
Proof. split; reflexivity. Qed.

Example test_task_configure :
  ∃ job w',
    Task.configure memory.task_a (Some "sher")
      (Some {[ "yay" := JString "ho" ]}) None None (memory.world memory.empty)
    = (Returned job, w')
    ∧ jobs.lock job = "sher"
    ∧ jobs.task_kwargs job = {[ "yay" := JString "ho" ]}.
Proof.
  rewrite configure_unfold by done. eexists _, _. split; [reflexivity|].
  split; reflexivity.
Qed.

Example test_task_configure_schedule_at :
  ∃ job w',
    Task.configure memory.task_a None None (Some y2k) None
      (memory.world memory.empty)
    = (Returned job, w')
    ∧ jobs.scheduled_at job = Some y2k.
Proof.
  rewrite configure_unfold by done. eexists _, _. split; [reflexivity|]. done.
Qed.

Example test_task_configure_no_lock :
  ∃ job w',
    Task.configure memory.task_a None None None None (memory.world memory.empty)
    = (Returned job, w')
    ∧ jobs.lock job = "01234567-89ab-4def-8123-456789abcdef".
Proof.
  rewrite configure_unfold by done. eexists _, _. split; [reflexivity|].
  reflexivity.
Qed.

Example test_task_configure_schedule_in :
  ∃ job w',
    Task.configure memory.task_a None None None (Some {[ "hours" := 2 ]})
      (pendulum.test y2k (memory.world memory.empty))
    = (Returned job, w')
    ∧ jobs.scheduled_at job = Some y2k_2am.
Proof.
  exists (jobs.mkJob None "01234567-89ab-4def-8123-456789abcdef" "task_func"
            "queue" ∅ (Some y2k_2am) 0),
         (set_urandom_reads 1 (pendulum.test y2k (memory.world memory.empty))).
  split; reflexivity.
Qed.

Example test_task_configure_schedule_in_and_schedule_at :
  (Task.configure memory.task_a None None (Some y2k) (Some {[ "hours" := 2 ]})
     (memory.world memory.empty)).1
  = Raised (ValueError "Cannot set both schedule_at and schedule_in").
Proof. reflexivity. Qed.

Example test_task_manager_register_queue_already_exists :
  let w0 :=
    set_managers (λ f, <[1%nat := mkTaskManager 0 ∅ {[ "queue" ]}]> f)
      (memory.world1 memory.empty) in
  let w := (TaskManager.register 1 memory.task_c w0).2 in
  queues (managers w 1%nat) = {[ "queue" ]}
  ∧ tasks (managers w 1%nat) = {[ "bla" := memory.task_c ]}
  ∧ memory.jobs (stores w 0%nat) = ∅
  ∧ store_calls w = [].
Proof. repeat split; reflexivity. Qed.

Example test_task_manager_register :
  let w := (TaskManager.register 1 memory.task_c (memory.world1 memory.empty)).2 in
  queues (managers w 1%nat) = {[ "queue" ]}
  ∧ tasks (managers w 1%nat) = {[ "bla" := memory.task_c ]}
  ∧ dom (memory.jobs (stores w 0%nat)) = {[ "queue" ]}.
Proof. repeat split; reflexivity. Qed.

Example test_task_call :
  (Task.__call__ memory.task_b ∅ (memory.world memory.empty)).1
  = Returned (JString "foo").
Proof. done. Qed.

Lemma configure_job_fields_witness :
  Task.configure memory.task_a None None None None (memory.world memory.empty)
  = (Returned
       (jobs.mkJob None "01234567-89ab-4def-8123-456789abcdef" "task_func"
          "queue" ∅ None 0),
     set_urandom_reads 1 (memory.world memory.empty))
  ∧ jobs.id
      (jobs.mkJob None "01234567-89ab-4def-8123-456789abcdef" "task_func"
         "queue" ∅ None 0)
    = None.
Proof.
  assert (H : Task.configure memory.task_a None None None None
                (memory.world memory.empty)
              = (Returned
                   (jobs.mkJob None "01234567-89ab-4def-8123-456789abcdef"
                      "task_func" "queue" ∅ None 0),
                 set_urandom_reads 1 (memory.world memory.empty)))
    by reflexivity.
  split; [exact H|].
  exact (proj1 (configure_job_fields _ _ _ _ _ _ _ _ H)).
Defined.

Lemma lock_never_empty_witness :
  Task.configure memory.task_a (Some "") None None None
    (memory.world memory.empty)
  = (Returned
       (jobs.mkJob None "01234567-89ab-4def-8123-456789abcdef" "task_func"
          "queue" ∅ None 0),
     set_urandom_reads 1 (memory.world memory.empty))
  ∧ Task.configure memory.task_a None None None None
      (set_urandom_reads 1 (memory.world memory.empty))
    = (Returned
         (jobs.mkJob None "02468acf-1357-4bde-8246-8acf13579bde" "task_func"
            "queue" ∅ None 0),
       set_urandom_reads 2 (memory.world memory.empty))
  ∧ jobs.lock
      (jobs.mkJob None "01234567-89ab-4def-8123-456789abcdef" "task_func"
         "queue" ∅ None 0)
    ≠ ""
  ∧ (jobs.lock
       (jobs.mkJob None "01234567-89ab-4def-8123-456789abcdef" "task_func"
          "queue" ∅ None 0)
     = jobs.lock
         (jobs.mkJob None "02468acf-1357-4bde-8246-8acf13579bde" "task_func"
            "queue" ∅ None 0)
     ↔ uuid.UUID
         (urandom (memory.world memory.empty)
            (urandom_reads (memory.world memory.empty)) mod 2 ^ 128)
       = uuid.UUID
           (urandom (memory.world memory.empty)
              (S (urandom_reads (memory.world memory.empty))) mod 2 ^ 128)).
Proof.
  assert (H1 : Task.configure memory.task_a (Some "") None None None
                 (memory.world memory.empty)
               = (Returned
                    (jobs.mkJob None "01234567-89ab-4def-8123-456789abcdef"
                       "task_func" "queue" ∅ None 0),
                  set_urandom_reads 1 (memory.world memory.empty)))
    by reflexivity.
  assert (H1' : Task.configure memory.task_a None None None None
                  (memory.world memory.empty)
                = (Returned
                     (jobs.mkJob None "01234567-89ab-4def-8123-456789abcdef"
                        "task_func" "queue" ∅ None 0),
                   set_urandom_reads 1 (memory.world memory.empty)))
    by reflexivity.
  assert (H2 : Task.configure memory.task_a None None None None
                 (set_urandom_reads 1 (memory.world memory.empty))
               = (Returned
                    (jobs.mkJob None "02468acf-1357-4bde-8246-8acf13579bde"
                       "task_func" "queue" ∅ None 0),
                  set_urandom_reads 2 (memory.world memory.empty)))
    by reflexivity.
  split; [exact H1|]. split; [exact H2|].
  split; [exact (proj1 lock_never_empty _ _ _ _ _ _ _ _ H1)|].
  destruct (proj2 (proj2 lock_never_empty) _ _ _ _ _ _ _ _ _ _ _ _ _ H1' H2)
    as (_ & _ & _ & _ & Hiff).
  exact Hiff.
Defined.

(** C7 as stated fails: a random source that gives the same sixteen bytes
    twice makes two calls in a row return the same lock. *)
Lemma locks_may_repeat :
  ¬ (∀ (JS : JobStore) (self : Task) (w w1 w2 : World) (job job' : jobs.Job),
       Task.configure self None None None None w = (Returned job, w1) →
       Task.configure self None None None None w1 = (Returned job', w2) →
       jobs.lock job ≠ jobs.lock job').
Proof.
  intros H.
  apply (H memory.store memory.task_a (memory.stuck memory.empty)
           (set_urandom_reads 1 (memory.stuck memory.empty))
           (set_urandom_reads 2 (memory.stuck memory.empty))
           (jobs.mkJob None "00000000-0000-4000-8000-000000000005" "task_func"
              "queue" ∅ None 0)
           (jobs.mkJob None "00000000-0000-4000-8000-000000000005" "task_func"
              "queue" ∅ None 0));
    reflexivity.
Qed.

(** C1 as stated fails: keyword arguments with a key named ["self"] are
    refused by [Task.defer], which hands nothing to the store, while
    configuring with them and handing the job over returns an id. *)
Lemma defer_refuses_self :
  ¬ (∀ (JS : JobStore) (self : Task) (task_kwargs : JSONDict) (w : World),
       Task.defer self task_kwargs w
       = (job ← Task.configure self None (Some task_kwargs) None None;
          store_defer (jobs.job_store job) job) w).
Proof.
  intros H.
  specialize (H memory.store memory.task_a {[ "self" := JNumber 1 ]}
                (store_register_queue 0 "queue" (memory.world memory.empty)).2).
  apply (f_equal fst) in H. vm_compute in H. discriminate H.
Qed.

(** C8 as stated fails: keyword arguments with a key named ["self"] are
    refused by the call, though the work unit returns on them. *)
Lemma call_refuses_self :
  ¬ (∀ (JS : JobStore) (FN : Functions) (self : Task) (kwargs : JSONDict)
       (w : World),
       Task.__call__ self kwargs w = apply (func self) kwargs w).
Proof.
  intros H.
  specialize (H memory.store memory.functions memory.task_b
                {[ "self" := JNumber 1 ]} (memory.world memory.empty)).
  apply (f_equal fst) in H. vm_compute in H. discriminate H.
Qed.

Lemma defer_configure_then_submit_witness :
  ("self" ∉ dom ({[ "c" := JNumber 3 ]} : JSONDict))
  ∧ Task.defer memory.task_a {[ "c" := JNumber 3 ]}
      (store_register_queue 0 "queue" (memory.world memory.empty)).2
    = (job ← Task.configure memory.task_a None (Some {[ "c" := JNumber 3 ]})
               None None;
       store_defer (jobs.job_store job) job)
        (store_register_queue 0 "queue" (memory.world memory.empty)).2.
Proof.
  assert (H : "self" ∉ dom ({[ "c" := JNumber 3 ]} : JSONDict)).
  { rewrite dom_singleton_L. intros H%elem_of_singleton. discriminate H. }
  split; [exact H|].
  exact (proj1 (proj1 (defer_configure_then_submit memory.task_a
                         {[ "c" := JNumber 3 ]}
                         (store_register_queue 0 "queue"
                            (memory.world memory.empty)).2) H)).
Defined.

Lemma call_is_the_work_unit_witness :
  ("self" ∉ dom ({[ "x" := JNumber 1 ]} : JSONDict))
  ∧ Task.__call__ memory.task_b {[ "x" := JNumber 1 ]}
      (memory.world memory.empty)
    = apply (func memory.task_b) {[ "x" := JNumber 1 ]}
        (memory.world memory.empty).
Proof.
  assert (H : "self" ∉ dom ({[ "x" := JNumber 1 ]} : JSONDict)).
  { rewrite dom_singleton_L. intros H%elem_of_singleton. discriminate H. }
  split; [exact H|].
  exact (proj1 (proj1 (call_is_the_work_unit memory.task_b
                         {[ "x" := JNumber 1 ]} (memory.world memory.empty))
                  H)).
Defined.

Lemma register_queue_once_witness :
  "queue" ∈ queue <$> [memory.task_d; memory.task_b; memory.task_c]
  ∧ ("queue" ∉ queues (managers (memory.world1 memory.flaky) 1%nat))
  ∧ failures "queue" 1 [memory.task_d; memory.task_b; memory.task_c]
      (memory.world1 memory.flaky) = 0%nat
  ∧ all_returned 1 [memory.task_d; memory.task_b; memory.task_c]
      (memory.world1 memory.flaky) = false
  ∧ register_queue_calls (job_store (managers (memory.world1 memory.flaky) 1%nat))
      "queue"
      (store_calls
         (register_all 1 [memory.task_d; memory.task_b; memory.task_c]
            (memory.world1 memory.flaky)))
    = (register_queue_calls
         (job_store (managers (memory.world1 memory.flaky) 1%nat)) "queue"
         (store_calls (memory.world1 memory.flaky)) + 1)%nat.
Proof.
  assert (H1 : "queue" ∈ queue <$> [memory.task_d; memory.task_b; memory.task_c])
    by (right; left).
  assert (H2 : "queue" ∉ queues (managers (memory.world1 memory.flaky) 1%nat))
    by apply not_elem_of_empty.
  assert (H3 : failures "queue" 1 [memory.task_d; memory.task_b; memory.task_c]
                 (memory.world1 memory.flaky) = 0%nat)
    by reflexivity.
  split; [exact H1|]. split; [exact H2|]. split; [exact H3|].
  split; [reflexivity|].
  destruct (register_queue_once 1 [memory.task_d; memory.task_b; memory.task_c]
              "queue" (memory.world1 memory.flaky)) as (_ & Hone & _).
  exact (Hone H1 H2 H3).
Defined.

Lemma register_provisioning_fails_witness :
  (queue memory.task_a ∉ queues (managers (memory.world memory.flaky) 0%nat))
  ∧ register_queue (queue memory.task_a)
      (stores (memory.world memory.flaky)
         (job_store (managers (memory.world memory.flaky) 0%nat)))
    = (Raised memory.StoreError, memory.empty)
  ∧ ∃ w',
      TaskManager.register 0 memory.task_a (memory.world memory.flaky)
      = (Raised memory.StoreError, w')
      ∧ tasks (managers w' 0%nat) !! "task_func" = Some memory.task_a
      ∧ "queue" ∉ queues (managers w' 0%nat).
Proof.
  assert (H1 : queue memory.task_a
               ∉ queues (managers (memory.world memory.flaky) 0%nat))
    by (simpl; apply not_elem_of_empty).
  assert (H2 : register_queue (queue memory.task_a)
                 (stores (memory.world memory.flaky)
                    (job_store (managers (memory.world memory.flaky) 0%nat)))
               = (Raised memory.StoreError, memory.empty))
    by reflexivity.
  split; [exact H1|]. split; [exact H2|].
  destruct (register_provisioning_fails 0 memory.task_a
              (memory.world memory.flaky) _ _ H1 H2)
    as (w' & Hr & _ & Ht & _ & Hq).
  exists w'. split; [exact Hr|]. split; [exact Ht|exact Hq].
Defined.

(** C5 as stated fails: a store that is down at the first registration is
    asked for the same queue again at the second, and has then been asked
    twice for it. *)
Lemma register_queue_twice :
  ¬ (∀ (JS : JobStore) (store : StoreRef) (w w0 : World) (self : ManagerRef)
       (ts : list Task) (q : string),
       TaskManager.__init__ (Some store) w = (Returned self, w0) →
       q ∈ queue <$> ts →
       register_queue_calls store q (store_calls (register_all self ts w0))
       = (register_queue_calls store q (store_calls w0) + 1)%nat).
Proof.
  intros H.
  specialize (H memory.store 0%nat (memory.world memory.flaky)
                (memory.world1 memory.flaky) 1%nat
                [memory.task_b; memory.task_c] "queue" eq_refl).
  assert (Hin : "queue" ∈ queue <$> [memory.task_b; memory.task_c])
    by left.
  specialize (H Hin). vm_compute in H. discriminate H.
Qed.

Example register_queue_twice_calls :
  store_calls (register_all 1 [memory.task_b; memory.task_c]
                 (memory.world1 memory.flaky))
  = [RegisterQueue 0 "queue"; RegisterQueue 0 "queue"].
Proof. vm_compute. reflexivity. Qed.

(** ** The further properties on a store in memory *)

Lemma init_name_witness :
  __name__ memory.task_func ≠ ""
  ∧ name (Task.__init__ memory.task_func 0 "queue" (Some "")) ≠ "".
Proof.
  assert (H : __name__ memory.task_func ≠ "") by done.
  split; [exact H|].
  destruct (init_name memory.task_func 0 "queue" (Some "")) as (_&_&_&_&_&_&Hn).
  exact (Hn H).
Defined.

Lemma configure_with_lock_witness :
  "sher" ≠ ""
  ∧ Task.configure memory.task_a (Some "sher")
      (Some {[ "yay" := JString "ho" ]}) None None (memory.world memory.empty)
    = (Returned
         (jobs.mkJob None "sher" "task_func" "queue"
            {[ "yay" := JString "ho" ]} None 0),
       memory.world memory.empty)
  ∧ jobs.lock
      (jobs.mkJob None "sher" "task_func" "queue"
         {[ "yay" := JString "ho" ]} None 0)
    = "sher".
Proof.
  assert (H1 : "sher" ≠ "") by done.
  assert (H2 : Task.configure memory.task_a (Some "sher")
                 (Some {[ "yay" := JString "ho" ]}) None None
                 (memory.world memory.empty)
               = (Returned
                    (jobs.mkJob None "sher" "task_func" "queue"
                       {[ "yay" := JString "ho" ]} None 0),
                  memory.world memory.empty))
    by reflexivity.
  split; [exact H1|]. split; [exact H2|].
  exact (proj1 (configure_with_lock _ _ _ _ _ _ _ _ H1 H2)).
Defined.

Lemma configure_raises_witness :
  Task.configure memory.task_a None None (Some y2k) (Some ∅)
    (memory.world memory.empty)
  = (Raised (ValueError "Cannot set both schedule_at and schedule_in"),
     memory.world memory.empty)
  ∧ memory.world memory.empty = memory.world memory.empty.
Proof.
  assert (H : Task.configure memory.task_a None None (Some y2k) (Some ∅)
                (memory.world memory.empty)
              = (Raised (ValueError "Cannot set both schedule_at and schedule_in"),
                 memory.world memory.empty))
    by reflexivity.
  split; [exact H|].
  exact (proj1 (configure_raises _ _ _ _ _ _ _ _ H)).
Defined.

Lemma register_frame_witness :
  (queue memory.task_c ∉ queues (managers (memory.world1 memory.empty) 1%nat))
  ∧ log_records
      (TaskManager.register 1 memory.task_c (memory.world1 memory.empty)).2
    = log_records (memory.world1 memory.empty)
      ++ [mkLogRecord "Creating queue (if not already existing)"
            [("action", "create_queue"); ("queue", queue memory.task_c)]].
Proof.
  assert (H : queue memory.task_c
              ∉ queues (managers (memory.world1 memory.empty) 1%nat))
    by apply not_elem_of_empty.
  split; [exact H|].
  destruct (register_frame 1 memory.task_c (memory.world1 memory.empty))
    as (_&_&_&_&_&_&Hl).
  exact (Hl H).
Defined.

Lemma register_overwrites_witness :
  (TaskManager.register 0 memory.task_a (memory.world memory.flaky)).1
  = Raised memory.StoreError
  ∧ (register_queue (queue memory.task_a)
       (stores (memory.world memory.flaky)
          (job_store (managers (memory.world memory.flaky) 0%nat)))).1
    = Raised memory.StoreError.
Proof.
  assert (H : (TaskManager.register 0 memory.task_a
                 (memory.world memory.flaky)).1
              = Raised memory.StoreError)
    by reflexivity.
  split; [exact H|].
  destruct (register_overwrites 0 memory.task_a (memory.world memory.flaky))
    as (_&_&He).
  exact (proj2 (He _ H)).
Defined.

Lemma register_again_witness :
  TaskManager.register 1 memory.task_c (memory.world1 memory.empty)
  = (Returned tt,
     (TaskManager.register 1 memory.task_c (memory.world1 memory.empty)).2)
  ∧ ∃ w2,
      TaskManager.register 1 memory.task_c
        (TaskManager.register 1 memory.task_c (memory.world1 memory.empty)).2
      = (Returned tt, w2)
      ∧ store_calls w2
        = store_calls
            (TaskManager.register 1 memory.task_c
               (memory.world1 memory.empty)).2.
Proof.
  assert (H : TaskManager.register 1 memory.task_c (memory.world1 memory.empty)
              = (Returned tt,
                 (TaskManager.register 1 memory.task_c
                    (memory.world1 memory.empty)).2))
    by reflexivity.
  split; [exact H|].
  destruct (register_again _ _ _ _ H) as (w2 & H2 & _ & _ & Hc & _).
  exists w2. split; [exact H2|exact Hc].
Defined.

Lemma register_queue_at_most_witness :
  ("nowhere" ∉ queue <$> [memory.task_b; memory.task_c])
  ∧ register_queue_calls 0 "nowhere"
      (store_calls
         (register_all 1 [memory.task_b; memory.task_c]
            (memory.world1 memory.flaky)))
    = register_queue_calls 0 "nowhere" (store_calls (memory.world1 memory.flaky)).
Proof.
  assert (H : "nowhere" ∉ queue <$> [memory.task_b; memory.task_c]).
  { intros H. apply elem_of_cons in H as [H|H]; [discriminate H|].
    apply elem_of_cons in H as [H|H]; [discriminate H|].
    by apply elem_of_nil in H. }
  split; [exact H|].
  exact (proj2 (register_queue_at_most 1 [memory.task_b; memory.task_c]
                  "nowhere" (memory.world1 memory.flaky)) H).
Defined.

Lemma register_queue_at_least_witness :
  TaskManager.__init__ (Some 0%nat) (memory.world memory.flaky)
  = (Returned 1%nat, memory.world1 memory.flaky)
  ∧ "queue" ∈ queue <$> [memory.task_b]
  ∧ (register_queue_calls 0 "queue" (store_calls (memory.world1 memory.flaky))
     < register_queue_calls 0 "queue"
         (store_calls (register_all 1 [memory.task_b] (memory.world1 memory.flaky))))%nat.
Proof.
  assert (H1 : TaskManager.__init__ (Some 0%nat) (memory.world memory.flaky)
               = (Returned 1%nat, memory.world1 memory.flaky))
    by reflexivity.
  assert (H2 : "queue" ∈ queue <$> [memory.task_b]) by left.
  split; [exact H1|]. split; [exact H2|].
  exact (proj1 (register_queue_at_least 0 _ _ 1 [memory.task_b] "queue" H1) H2).
Defined.

Lemma last_registration_wins_witness :
  [memory.task_b; Task.__init__ memory.task_func 1 "other" (Some "b")]
  = [memory.task_b] ++ Task.__init__ memory.task_func 1 "other" (Some "b") :: []
  ∧ (name (Task.__init__ memory.task_func 1 "other" (Some "b")) ∉ name <$> [])
  ∧ tasks
      (managers
         (register_all 1
            [memory.task_b; Task.__init__ memory.task_func 1 "other" (Some "b")]
            (memory.world1 memory.empty))
         1%nat)
    !! "b"
    = Some (Task.__init__ memory.task_func 1 "other" (Some "b")).
Proof.
  assert (H1 : [memory.task_b;
                Task.__init__ memory.task_func 1 "other" (Some "b")]
               = [memory.task_b]
                 ++ Task.__init__ memory.task_func 1 "other" (Some "b") :: [])
    by reflexivity.
  assert (H2 : name (Task.__init__ memory.task_func 1 "other" (Some "b"))
               ∉ name <$> [])
    by apply not_elem_of_nil.
  split; [exact H1|]. split; [exact H2|].
  destruct (last_registration_wins 1
              [memory.task_b; Task.__init__ memory.task_func 1 "other" (Some "b")]
              (memory.world1 memory.empty)) as (_ & Hlast & _).
  exact (Hlast _ _ _ H1 H2).
Defined.

Lemma registered_queues_known_witness :
  TaskManager.__init__ (Some 0%nat) (memory.world memory.empty)
  = (Returned 1%nat, memory.world1 memory.empty)
  ∧ all_returned 1 [memory.task_b; memory.task_d] (memory.world1 memory.empty)
    = true
  ∧ queues
      (managers
         (register_all 1 [memory.task_b; memory.task_d]
            (memory.world1 memory.empty))
         1%nat)
    = list_to_set (queue <$> [memory.task_b; memory.task_d]).
Proof.
  assert (H1 : TaskManager.__init__ (Some 0%nat) (memory.world memory.empty)
               = (Returned 1%nat, memory.world1 memory.empty))
    by reflexivity.
  assert (H2 : all_returned 1 [memory.task_b; memory.task_d]
                 (memory.world1 memory.empty) = true)
    by reflexivity.
  split; [exact H1|]. split; [exact H2|].
  exact (proj1 (registered_queues_known 0 _ _ 1 _ H1 H2)).
Defined.

Lemma init_manager_witness :
  ∃ w0,
    TaskManager.__init__ (Some 0%nat) (memory.world memory.empty)
    = (Returned 1%nat, w0)
    ∧ tasks (managers w0 1%nat) = ∅
    ∧ managers w0 0%nat = managers (memory.world memory.empty) 0%nat.
Proof.
  destruct (init_manager (Some 0%nat) (memory.world memory.empty))
    as (w0 & H1 & H2 & _ & _ & Hm & _).
  exists w0. split; [exact H1|]. split; [exact H2|].
  apply Hm. discriminate.
Defined.

Lemma register_keeps_job_store_witness :
  Task.configure memory.task_a (Some "sher") None None None
    (TaskManager.register 1 memory.task_a (memory.world1 memory.empty)).2
  = (Returned (jobs.mkJob None "sher" "task_func" "queue" ∅ None 0),
     (TaskManager.register 1 memory.task_a (memory.world1 memory.empty)).2)
  ∧ jobs.job_store (jobs.mkJob None "sher" "task_func" "queue" ∅ None 0)
    = job_store (managers (memory.world1 memory.empty) (manager memory.task_a)).
Proof.
  assert (H : Task.configure memory.task_a (Some "sher") None None None
                (TaskManager.register 1 memory.task_a
                   (memory.world1 memory.empty)).2
              = (Returned (jobs.mkJob None "sher" "task_func" "queue" ∅ None 0),
                 (TaskManager.register 1 memory.task_a
                    (memory.world1 memory.empty)).2))
    by reflexivity.
  split; [exact H|].
  exact (register_keeps_job_store _ _ _ _ _ _ _ _ _ _ H).
Defined.

(** The unit tests of the decorator, replayed. *)

Example test_task_manager_task_explicit :
  ∃ wrap,
    TaskManager.task 1 None (Some "a") (Some "b") (memory.world1 memory.empty)
    = (Returned (TaskManager.Decorator wrap), memory.world1 memory.empty)
    ∧ (wrap memory.wrapped (memory.world1 memory.empty)).1
      = Returned (Task.__init__ memory.wrapped 1 "a" (Some "b"))
    ∧ tasks (managers (wrap memory.wrapped (memory.world1 memory.empty)).2 1%nat)
      !! "b"
      = Some (Task.__init__ memory.wrapped 1 "a" (Some "b"))
    ∧ (Task.__call__ (Task.__init__ memory.wrapped 1 "a" (Some "b")) ∅
         (memory.world1 memory.empty)).1
      = Returned (JString "foo").
Proof.
  eexists. split; [reflexivity|]. split; [reflexivity|]. split; reflexivity.
Qed.

Example test_task_manager_task_implicit :
  (TaskManager.task 1 (Some memory.wrapped) None None
     (memory.world1 memory.empty)).1
  = Returned
      (TaskManager.Wrapped (Task.__init__ memory.wrapped 1 "default" None))
  ∧ name (Task.__init__ memory.wrapped 1 "default" None) = "wrapped"
  ∧ tasks
      (managers
         (TaskManager.task 1 (Some memory.wrapped) None None
            (memory.world1 memory.empty)).2
         1%nat)
    !! "wrapped"
    = Some (Task.__init__ memory.wrapped 1 "default" None).
Proof. split; [reflexivity|]. split; reflexivity. Qed.
